(** * Boundary-crossing benchmark: a shallow embedding of [python_node.py]
      and [bench.py]

    Python objects live in an explicit store, statements are computations
    in a state-and-exception monad, and the observable actions of the
    benchmark driver (calls through [fn], clock readings, printed lines)
    are recorded in a trace.  Python [int] is [Z]; Python [float] and the
    two extension modules ([c_node], [rust_node]) are parameters. *)

From Stdlib Require Import ZArith String Ascii List Bool Lia DecimalString.
From Stdlib Require Import SpecFloat.
Import ListNotations.
Open Scope Z_scope.

(** ** Outcomes and the computation monad *)

Inductive exn : Type :=
| AssertionError (msg : string)
| AttributeError
| TypeError
| ZeroDivisionError
| ForeignError (msg : string).

(** A statement either completes with a value, raises, or (for the [while]
    loops, which are run with a step budget) has not finished yet. *)
Inductive res (A : Type) : Type :=
| Val (a : A)
| Raise (e : exn)
| OutOfFuel.
Arguments Val {A} a.
Arguments Raise {A} e.
Arguments OutOfFuel {A}.

Definition comp (St A : Type) : Type := St -> res A * St.

Definition ret {St A} (a : A) : comp St A := fun s => (Val a, s).

Definition raise {St A} (e : exn) : comp St A := fun s => (Raise e, s).

Definition bind {St A B} (m : comp St A) (k : A -> comp St B) : comp St B :=
  fun s =>
    match m s with
    | (Val a, s') => k a s'
    | (Raise e, s') => (Raise e, s')
    | (OutOfFuel, s') => (OutOfFuel, s')
    end.

Declare Scope comp_scope.
Delimit Scope comp_scope with comp.
Notation "x <- m ;; k" := (bind m (fun x => k))
  (at level 61, m at next level, right associativity) : comp_scope.
Notation "m ;; k" := (bind m (fun _ => k))
  (at level 61, right associativity) : comp_scope.
Open Scope comp_scope.

(** [assert cond, msg]: the message expression is evaluated only when the
    condition is false.  Assertions are modelled as executed (the
    interpreter's default mode). *)
Definition assert {St} (cond : bool) (msg : comp St string) : comp St unit :=
  if cond then ret tt else (m <- msg ;; raise (AssertionError m)).

(** [for x in xs: acc = body(x, acc)] *)
Fixpoint for_in {St X A} (xs : list X) (body : X -> A -> comp St A) (acc : A)
  : comp St A :=
  match xs with
  | [] => ret acc
  | x :: xs' => acc' <- body x acc ;; for_in xs' body acc'
  end.

(** Python's [range(start, stop, step)] for a non-zero step. *)
Definition range3 (start stop step : Z) : list Z :=
  let len :=
    if 0 <? step then (stop - start + step - 1) / step
    else if step <? 0 then (start - stop - step - 1) / (- step)
    else 0 in
  map (fun k => start + Z.of_nat k * step) (seq 0 (Z.to_nat len)).

Definition range (stop : Z) : list Z := range3 0 stop 1.

(** Python's [str] on an [int]. *)
Definition str (z : Z) : string := NilEmpty.string_of_int (Z.to_int z).

(** ** String formatting used by the report *)

(** [s * n] *)
Fixpoint str_mul (s : string) (n : nat) : string :=
  match n with
  | O => EmptyString
  | S n' => (s ++ str_mul s n')%string
  end.

(** [f"{s:40s}"] and [f"{s:>14s}"]: pad on the right, pad on the left. *)
Definition ljust (width : nat) (s : string) : string :=
  (s ++ str_mul " " (width - String.length s))%string.

Definition rjust (width : nat) (s : string) : string :=
  (str_mul " " (width - String.length s) ++ s)%string.

(** Digits least-significant first, a comma before every fourth one. *)
Fixpoint group3 (digits : list ascii) (k : nat) : list ascii :=
  match digits with
  | [] => []
  | d :: rest =>
      match k with
      | O => ","%char :: d :: group3 rest 2
      | S k' => d :: group3 rest k'
      end
  end.

(** [f"{z:,}"] *)
Definition str_commas (z : Z) : string :=
  let body := string_of_list_ascii
                (rev (group3 (rev (list_ascii_of_string (str (Z.abs z)))) 3)) in
  if z <? 0 then ("-" ++ body)%string else body.

Definition nl : string := String "010"%char EmptyString.

Section Program.

(** ** The object store *)

(** Objects created by the extension modules are opaque handles; their
    fields live in a state private to those modules. *)
Variable handle : Type.
Variable ext : Type.

Inductive ref : Type :=
| PyObj (l : nat)
| ExtObj (x : handle).

(** An instance of the dataclass [PyNode]. *)
Record py_node : Type := mk_py_node { value : Z; next : option ref }.

Record store : Type := mk_store { heap : list py_node; foreign : ext }.

(** Attribute reads on extension objects ([PyMemberDef] / [#[pyo3(get)]]
    descriptors). *)
Variable ext_value : handle -> comp ext Z.
Variable ext_next : handle -> comp ext (option ref).

Definition in_ext {A} (m : comp ext A) : comp store A :=
  fun s => let (r, e') := m (foreign s) in (r, mk_store (heap s) e').

(** [PyNode(value=v, next=nx)]: a fresh object at the end of the heap. *)
Definition PyNode (v : Z) (nx : option ref) : comp store ref :=
  fun s => (Val (PyObj (length (heap s))),
            mk_store (heap s ++ [mk_py_node v nx]) (foreign s)).

(** [r.value] *)
Definition get_value (r : ref) : comp store Z :=
  match r with
  | PyObj l => fun s =>
      match nth_error (heap s) l with
      | Some nd => (Val (value nd), s)
      | None => (Raise AttributeError, s)
      end
  | ExtObj x => in_ext (ext_value x)
  end.

(** [r.next] *)
Definition get_next (r : ref) : comp store (option ref) :=
  match r with
  | PyObj l => fun s =>
      match nth_error (heap s) l with
      | Some nd => (Val (next nd), s)
      | None => (Raise AttributeError, s)
      end
  | ExtObj x => in_ext (ext_next x)
  end.

(** ** python_node.py *)

(** The [while current is not None] loop of [py_sum_list]; [fuel] bounds
    the number of times the body runs. *)
Fixpoint py_sum_loop (fuel : nat) (total : Z) (current : option ref)
  : comp store Z :=
  match current with
  | None => ret total
  | Some cur =>
      match fuel with
      | O => fun s => (OutOfFuel, s)
      | S fuel' =>
          v <- get_value cur ;;
          let total := total + v in
          current <- get_next cur ;;
          py_sum_loop fuel' total current
      end
  end.

Definition py_sum_list (fuel : nat) (head : option ref) : comp store Z :=
  let total := 0 in
  let current := head in
  py_sum_loop fuel total current.

(** ** bench.py *)

Definition N : Z := 1000.
Definition M : Z := 100000.

Definition build_list (NodeClass : Z -> option ref -> comp store ref) (n : Z)
  : comp store ref :=
  assert (0 <? n) (ret ("List length must be positive, got " ++ str n)%string) ;;
  head <- NodeClass (n - 1) None ;;
  for_in (range3 (n - 2) (-1) (-1))
         (fun i head => NodeClass i (Some head)) head.

(** The loop of [python_sum_list]. *)
Fixpoint python_sum_loop (fuel : nat) (total : Z) (current : option ref)
  : comp store Z :=
  match current with
  | None => ret total
  | Some cur =>
      match fuel with
      | O => fun s => (OutOfFuel, s)
      | S fuel' =>
          v <- get_value cur ;;
          let total := total + v in
          current <- get_next cur ;;
          python_sum_loop fuel' total current
      end
  end.

Definition python_sum_list (fuel : nat) (head : option ref) : comp store Z :=
  let total := 0 in
  let current := head in
  python_sum_loop fuel total current.

(** ** Floats *)

(** Python's [float] and the operations the driver applies to it.
    [int_truediv a b] is the value of [a / b] on two ints with [b] not
    zero (quotients of nanosecond counts always fit a float);
    [float_div x y] is the value of [x / y] for [y] not zero. *)
Variable float : Type.
Variable int_truediv : Z -> Z -> float.
Variable float_div : float -> float -> float.
Variable float_sub : float -> float -> float.
Variable float_lt : float -> float -> bool.
Variable float_is_zero : float -> bool.
Variable float_of_int : Z -> float.

(** [a / b] on ints *)
Definition int_div {St} (a b : Z) : comp St float :=
  if b =? 0 then raise ZeroDivisionError else ret (int_truediv a b).

(** [x / y] on floats *)
Definition truediv {St} (x y : float) : comp St float :=
  if float_is_zero y then raise ZeroDivisionError else ret (float_div x y).

(** ** The process: store, environment, clock and trace *)

(** What the printed lines carry.  Lines that format a float keep the
    float itself. *)
Inductive line : Type :=
| Text (s : string)
| BenchLine (label : string) (ns_per : float)
    (* f"{label:40s}  {ns_per:8.0f} ns/traversal" *)
| RatioLine (label : string) (ratio : float)
    (* f"{label}{ratio:6.2f}x" *)
| SlowerLine (diff overhead_ns : float).
    (* f"Rust native slower than C native by {diff:.0f} ns/traversal
         ({overhead_ns:.1f} ns/node)." *)

Inductive event : Type :=
| EvCall (arg : option ref)     (* a call [fn(arg)] through a callable value *)
| EvClock (t : Z)               (* a reading of [time.perf_counter_ns] *)
| EvPrint (l : line).

(** What the interpreter and the probes report.  [cc_version] and
    [rustc_version] hold the text kept from the subprocess output, or
    [None] when running the subprocess raised. *)
Record environment : Type := mk_environment {
  sys_version : string;
  platform_platform : string;
  cc_version : option string;
  rustc_version : option string
}.

Record world : Type := mk_world {
  objs : store;
  env : environment;
  clock : nat -> Z;      (* the successive readings of the monotonic clock *)
  ticks : nat;           (* how many readings were taken *)
  trace : list event
}.

Definition set_objs (s : store) (w : world) : world :=
  mk_world s (env w) (clock w) (ticks w) (trace w).

Definition add_events (evs : list event) (w : world) : world :=
  mk_world (objs w) (env w) (clock w) (ticks w) (trace w ++ evs).

Definition in_store {A} (m : comp store A) : comp world A :=
  fun w => let (r, s') := m (objs w) in (r, set_objs s' w).

Definition emit (ev : event) : comp world unit :=
  fun w => (Val tt, add_events [ev] w).

Definition print (l : line) : comp world unit := emit (EvPrint l).

(** [time.perf_counter_ns()] *)
Definition perf_counter_ns : comp world Z :=
  fun w => let t := clock w (ticks w) in
           (Val t,
            mk_world (objs w) (env w) (clock w) (S (ticks w))
                     (trace w ++ [EvClock t])).

(** The values passed as [fn]: functions of one argument acting on the
    object store, and objects that are not callable (with their type's
    name). *)
Inductive pyval : Type :=
| Function (f : option ref -> comp store Z)
| NonCallable (type_name : string).

Definition callable (fn : pyval) : bool :=
  match fn with
  | Function _ => true
  | NonCallable _ => false
  end.

(** [f"{type(fn)}"] *)
Definition type_repr (fn : pyval) : string :=
  match fn with
  | Function _ => "<class 'function'>"
  | NonCallable type_name => ("<class '" ++ type_name ++ "'>")%string
  end.

(** [fn(arg)] *)
Definition call (fn : pyval) (arg : option ref) : comp world Z :=
  match fn with
  | Function f => emit (EvCall arg) ;; in_store (f arg)
  | NonCallable _ => raise TypeError
  end.

Definition bench (label : string) (fn : pyval) (head : option ref)
                 (iterations : Z) : comp world float :=
  assert (0 <? iterations)
         (ret ("Iterations must be positive, got " ++ str iterations)%string) ;;
  assert (callable fn)
         (ret ("fn must be callable, got " ++ type_repr fn)%string) ;;
  (* Warmup *)
  for_in (range 1000) (fun _ _ => _ <- call fn head ;; ret tt) tt ;;
  (* Timed run *)
  t0 <- perf_counter_ns ;;
  for_in (range iterations) (fun _ _ => _ <- call fn head ;; ret tt) tt ;;
  t1 <- perf_counter_ns ;;
  let elapsed_ns := t1 - t0 in
  ns_per <- int_div elapsed_ns iterations ;;
  print (BenchLine label ns_per) ;;
  ret ns_per.

Definition get_compiler_version : comp world string :=
  fun w => match cc_version (env w) with
           | Some out => (Val out, w)
           | None => (Val "unknown"%string, w)
           end.

Definition get_rust_version : comp world string :=
  fun w => match rustc_version (env w) with
           | Some out => (Val out, w)
           | None => (Val "unknown"%string, w)
           end.

(** The extension modules: [from c_node import CNode, c_sum_list] and
    [from rust_node import RustNode, rust_sum_list]. *)
Variable CNode : Z -> option ref -> comp ext ref.
Variable c_sum_list : option ref -> comp ext Z.
Variable RustNode : Z -> option ref -> comp ext ref.
Variable rust_sum_list : option ref -> comp ext Z.

(** [assert f(lst) == expected, f"{name} wrong: {f(lst)} != {expected}"] *)
Definition assert_sum (name : string) (f : option ref -> comp store Z)
                      (lst : ref) (expected : Z) : comp world unit :=
  got <- in_store (f (Some lst)) ;;
  assert (got =? expected)
         (again <- in_store (f (Some lst)) ;;
          ret (name ++ " wrong: " ++ str again ++ " != " ++ str expected)%string).

(** [# --- Environment ---] *)
Definition environment_report : comp world unit :=
  print (Text (str_mul "=" 60)) ;;
  print (Text "Boundary Crossing Benchmark") ;;
  print (Text (str_mul "=" 60)) ;;
  (fun w => print (Text ("Python:   " ++ sys_version (env w))%string) w) ;;
  (fun w => print (Text ("Platform: " ++ platform_platform (env w))%string) w) ;;
  cc <- get_compiler_version ;;
  print (Text ("CC:       " ++ cc)%string) ;;
  rustc <- get_rust_version ;;
  print (Text ("Rust:     " ++ rustc)%string) ;;
  print (Text "").

(** [# --- Build lists ---] *)
Definition build_lists : comp world (ref * ref * ref) :=
  py_list <- in_store (build_list PyNode N) ;;
  c_list <- in_store (build_list (fun v nx => in_ext (CNode v nx)) N) ;;
  rust_list <- in_store (build_list (fun v nx => in_ext (RustNode v nx)) N) ;;
  ret (py_list, c_list, rust_list).

(** [# --- Correctness verification ---] *)
Definition verify (fuel : nat) (py_list c_list rust_list : ref)
  : comp world unit :=
  let expected := N * (N - 1) / 2 in
  assert_sum "py_sum_list" (py_sum_list fuel) py_list expected ;;
  assert_sum "c_sum_list" (fun h => in_ext (c_sum_list h)) c_list expected ;;
  assert_sum "rust_sum_list" (fun h => in_ext (rust_sum_list h))
             rust_list expected ;;
  assert_sum "python_sum_list(py)" (python_sum_list fuel) py_list expected ;;
  assert_sum "python_sum_list(c)" (python_sum_list fuel) c_list expected ;;
  assert_sum "python_sum_list(rust)" (python_sum_list fuel)
             rust_list expected ;;
  print (Text ("Correctness: all implementations produce " ++ str expected
               ++ " (sum 0.." ++ str (N - 1) ++ ")")%string) ;;
  print (Text "").

Record timings : Type := mk_timings {
  py_native : float;  c_native : float;  rust_native : float;
  py_cross : float;   c_cross : float;   rust_cross : float
}.

(** [# --- Benchmark ---] *)
Definition benchmark (fuel : nat) (py_list c_list rust_list : ref)
  : comp world timings :=
  print (Text ("Linked list traversal: " ++ str N ++ " nodes, "
               ++ str_commas M ++ " iterations")%string) ;;
  print (Text (ljust 40 "Benchmark" ++ "  " ++ rjust 14 "ns/traversal")%string) ;;
  print (Text (str_mul "-" 56)) ;;
  print (Text (nl ++ "--- Native (loop + data in same language) ---")%string) ;;
  py_native <- bench "Python loop, Python nodes"
                     (Function (py_sum_list fuel)) (Some py_list) M ;;
  c_native <- bench "C loop, C nodes"
                    (Function (fun h => in_ext (c_sum_list h)))
                    (Some c_list) M ;;
  rust_native <- bench "Rust loop, Rust nodes"
                       (Function (fun h => in_ext (rust_sum_list h)))
                       (Some rust_list) M ;;
  print (Text (nl ++ "--- Python loop, different node types ---")%string) ;;
  py_cross <- bench "Python loop, Python nodes"
                    (Function (python_sum_list fuel)) (Some py_list) M ;;
  c_cross <- bench "Python loop, C nodes"
                   (Function (python_sum_list fuel)) (Some c_list) M ;;
  rust_cross <- bench "Python loop, Rust nodes"
                      (Function (python_sum_list fuel)) (Some rust_list) M ;;
  ret (mk_timings py_native c_native rust_native py_cross c_cross rust_cross).

(** [# --- Summary ratios ---] *)
Definition ratios (t : timings) : comp world unit :=
  print (Text (nl ++ "--- Ratios (relative to C native) ---")%string) ;;
  r <- truediv (py_native t) (c_native t) ;;
  print (RatioLine "  Python native / C native:  " r) ;;
  r <- truediv (rust_native t) (c_native t) ;;
  print (RatioLine "  Rust native / C native:    " r) ;;
  r <- truediv (py_cross t) (c_native t) ;;
  print (RatioLine "  Python cross / C native:   " r) ;;
  r <- truediv (c_cross t) (c_native t) ;;
  print (RatioLine "  C cross / C native:        " r) ;;
  r <- truediv (rust_cross t) (c_native t) ;;
  print (RatioLine "  Rust cross / C native:     " r).

(** [# --- Falsification check ---] *)
Definition falsification (rust_native c_native : float) : comp world unit :=
  print (Text (nl ++ "--- Falsification ---")%string) ;;
  if float_lt rust_native c_native then
    print (Text "UNEXPECTED: Rust native FASTER than C native.") ;;
    print (Text "The PyO3 boundary-crossing hypothesis is WRONG for this workload.")
  else
    overhead_ns <- truediv (float_sub rust_native c_native) (float_of_int N) ;;
    print (SlowerLine (float_sub rust_native c_native) overhead_ns) ;;
    print (Text "Consistent with PyO3 extract/borrow overhead per node.").

Definition main (fuel : nat) : comp world unit :=
  environment_report ;;
  lists <- build_lists ;;
  let '(py_list, c_list, rust_list) := lists in
  verify fuel py_list c_list rust_list ;;
  t <- benchmark fuel py_list c_list rust_list ;;
  ratios t ;;
  falsification (rust_native t) (c_native t).

(** ** Vocabulary of the statements *)

(** [chain h r cells]: following [next] from [r] in heap [h] visits exactly
    the PyNode objects at the addresses of [cells], in order, each holding
    the paired value, and then reaches [None]. *)
Fixpoint chain (h : list py_node) (r : option ref) (cells : list (nat * Z))
  : Prop :=
  match cells with
  | [] => r = None
  | (l, v) :: rest =>
      r = Some (PyObj l) /\
      exists nx, nth_error h l = Some (mk_py_node v nx) /\ chain h nx rest
  end.

Definition sum_Z (vs : list Z) : Z := fold_right Z.add 0 vs.

(** Where [build_list(PyNode, m)] run on a heap of [base] objects puts the
    nodes of values [from], ..., [m - 1]. *)
Definition cells_from (base m from : nat) : list (nat * Z) :=
  map (fun v => ((base + (m - 1 - v))%nat, Z.of_nat v)) (seq from (m - from)).

(** Every call [fn(head)] made from a store satisfying [inv] returns
    normally and leaves a store satisfying [inv]. *)
Definition returns_normally (inv : store -> Prop)
                            (f : option ref -> comp store Z)
                            (head : option ref) : Prop :=
  forall s, inv s -> exists v s', f head s = (Val v, s') /\ inv s'.

(** The run stopped without a value: an exception, or a loop that did not
    finish. *)
Definition aborted {A} (r : res A) : Prop :=
  match r with
  | Val _ => False
  | _ => True
  end.

(** How many calls through [fn] a trace records. *)
Definition calls_made (tr : list event) : nat :=
  length (filter (fun ev => match ev with EvCall _ => true | _ => false end) tr).

(** The footprint of [bench]: a call through [fn], a clock reading, a
    printed benchmark line. *)
Definition bench_event (ev : event) : bool :=
  match ev with
  | EvCall _ => true
  | EvClock _ => true
  | EvPrint (BenchLine _ _) => true
  | EvPrint _ => false
  end.

(** The six sums of the correctness verification, computed one after the
    other from store [s], all return [N*(N-1)/2]. *)
Definition sums_agree (fuel : nat) (py_list c_list rust_list : ref)
                      (s : store) : Prop :=
  let expected := N * (N - 1) / 2 in
  exists s1 s2 s3 s4 s5 s6,
    py_sum_list fuel (Some py_list) s = (Val expected, s1) /\
    in_ext (c_sum_list (Some c_list)) s1 = (Val expected, s2) /\
    in_ext (rust_sum_list (Some rust_list)) s2 = (Val expected, s3) /\
    python_sum_list fuel (Some py_list) s3 = (Val expected, s4) /\
    python_sum_list fuel (Some c_list) s4 = (Val expected, s5) /\
    python_sum_list fuel (Some rust_list) s5 = (Val expected, s6).

(** A computation that records nothing and does not read the clock. *)
Definition quiet {A} (m : comp world A) : Prop :=
  forall w, trace (snd (m w)) = trace w /\ ticks (snd (m w)) = ticks w.

(** A computation that leaves the heap of PyNode objects as it found it. *)
Definition heap_frame {A} (m : comp store A) : Prop :=
  forall s, heap (snd (m s)) = heap s.

(** In the extension state [e], reading [.value] or [.next] of an
    extension object only reads: whatever the read returns, the state of
    the extension modules after it is [e] again. *)
Definition read_only_getters (e : ext) : Prop :=
  forall x, snd (ext_value x e) = e /\ snd (ext_next x e) = e.

(** ** The monad *)

Lemma bind_val {St A B} (m : comp St A) (k : A -> comp St B) s a s' :
  m s = (Val a, s') -> bind m k s = k a s'.
Proof. intros H. unfold bind. now rewrite H. Qed.

Lemma bind_ext {St A B} (m : comp St A) (k1 k2 : A -> comp St B) s :
  (forall a s', k1 a s' = k2 a s') -> bind m k1 s = bind m k2 s.
Proof.
  intros H. unfold bind. destruct (m s) as [[a| |] s']; auto.
Qed.

Lemma bind_assoc {St A B C} (m : comp St A) (f : A -> comp St B)
      (g : B -> comp St C) s :
  bind (bind m f) g s = bind m (fun a => bind (f a) g) s.
Proof. unfold bind. destruct (m s) as [[a| |] s']; reflexivity. Qed.

Lemma bind_val_inv {St A B} (m : comp St A) (k : A -> comp St B) s b s2 :
  bind m k s = (Val b, s2) ->
  exists a s1, m s = (Val a, s1) /\ k a s1 = (Val b, s2).
Proof.
  unfold bind. destruct (m s) as [[a| |] s1]; intros H;
    [eauto | discriminate | discriminate].
Qed.

Lemma bind_aborted {St A B} (m : comp St A) (k : A -> comp St B) s :
  aborted (fst (m s)) ->
  aborted (fst (bind m k s)) /\ snd (bind m k s) = snd (m s).
Proof.
  unfold bind. destruct (m s) as [[a| |] s']; simpl; intuition.
Qed.

Lemma heap_frame_bind {A B} (m : comp store A) (k : A -> comp store B) :
  heap_frame m -> (forall a, heap_frame (k a)) -> heap_frame (bind m k).
Proof.
  intros Hm Hk s. unfold bind. specialize (Hm s).
  destruct (m s) as [[a| |] s']; simpl in *; auto.
  now rewrite Hk.
Qed.

Lemma heap_frame_in_ext {A} (m : comp ext A) : heap_frame (in_ext m).
Proof. intros s. unfold in_ext. now destruct (m (foreign s)). Qed.

Lemma heap_frame_get_value r : heap_frame (get_value r).
Proof.
  destruct r as [l|x]; simpl.
  - intros s. now destruct (nth_error (heap s) l).
  - apply heap_frame_in_ext.
Qed.

Lemma heap_frame_get_next r : heap_frame (get_next r).
Proof.
  destruct r as [l|x]; simpl.
  - intros s. now destruct (nth_error (heap s) l).
  - apply heap_frame_in_ext.
Qed.

Lemma heap_frame_py_sum_loop fuel :
  forall total current, heap_frame (py_sum_loop fuel total current).
Proof.
  induction fuel as [|fuel IH]; intros total [cur|]; simpl;
    try (intros s; reflexivity).
  apply heap_frame_bind; [apply heap_frame_get_value|intros v].
  apply heap_frame_bind; [apply heap_frame_get_next|intros nx].
  apply IH.
Qed.

Lemma heap_frame_python_sum_loop fuel :
  forall total current, heap_frame (python_sum_loop fuel total current).
Proof.
  induction fuel as [|fuel IH]; intros total [cur|]; simpl;
    try (intros s; reflexivity).
  apply heap_frame_bind; [apply heap_frame_get_value|intros v].
  apply heap_frame_bind; [apply heap_frame_get_next|intros nx].
  apply IH.
Qed.

Lemma python_sum_loop_eq fuel :
  forall total current s,
    python_sum_loop fuel total current s = py_sum_loop fuel total current s.
Proof.
  (* the two loops have the same body, statement for statement *)
  induction fuel as [|fuel IH]; intros total current s; reflexivity.
Qed.

(** ** Traversal *)

(** C8: [python_sum_list] and [py_sum_list] agree on every head (a node of
    any provider, or [None]) in every store and for every step budget: same
    outcome (value, exception, or still running) and same final store. *)
Theorem python_sum_list_eq_py_sum_list :
  forall fuel head s,
    python_sum_list fuel head s = py_sum_list fuel head s.
Proof.
  intros. unfold python_sum_list, py_sum_list. apply python_sum_loop_eq.
Qed.

(** C9: both traversals return 0 on an absent head, whatever the store and
    the step budget, and leave the store as it was. *)
Theorem sum_list_None :
  forall fuel s,
    py_sum_list fuel None s = (Val 0, s) /\
    python_sum_list fuel None s = (Val 0, s).
Proof.
  intros fuel s. unfold py_sum_list, python_sum_list.
  destruct fuel; split; reflexivity.
Qed.

Lemma get_value_read_only r s :
  read_only_getters (foreign s) -> snd (get_value r s) = s.
Proof.
  intros H. destruct r as [l|x]; simpl.
  - now destruct (nth_error (heap s) l).
  - unfold in_ext. destruct (H x) as [Hv _].
    destruct (ext_value x (foreign s)) as [r e']. simpl in *. subst e'.
    now destruct s.
Qed.

Lemma get_next_read_only r s :
  read_only_getters (foreign s) -> snd (get_next r s) = s.
Proof.
  intros H. destruct r as [l|x]; simpl.
  - now destruct (nth_error (heap s) l).
  - unfold in_ext. destruct (H x) as [_ Hn].
    destruct (ext_next x (foreign s)) as [r e']. simpl in *. subst e'.
    now destruct s.
Qed.

Lemma py_sum_loop_read_only fuel :
  forall total current s,
    read_only_getters (foreign s) ->
    snd (py_sum_loop fuel total current s) = s.
Proof.
  induction fuel as [|fuel IH]; intros total [cur|] s H; simpl;
    try reflexivity.
  unfold bind.
  assert (Hv := get_value_read_only cur s H).
  destruct (get_value cur s) as [[v| |] s1]; simpl in Hv; subst s1;
    try reflexivity.
  assert (Hn := get_next_read_only cur s H).
  destruct (get_next cur s) as [[nx| |] s2]; simpl in Hn; subst s2;
    try reflexivity.
  apply IH, H.
Qed.

Lemma python_sum_loop_read_only fuel :
  forall total current s,
    read_only_getters (foreign s) ->
    snd (python_sum_loop fuel total current s) = s.
Proof.
  induction fuel as [|fuel IH]; intros total [cur|] s H; simpl;
    try reflexivity.
  unfold bind.
  assert (Hv := get_value_read_only cur s H).
  destruct (get_value cur s) as [[v| |] s1]; simpl in Hv; subst s1;
    try reflexivity.
  assert (Hn := get_next_read_only cur s H).
  destruct (get_next cur s) as [[nx| |] s2]; simpl in Hn; subst s2;
    try reflexivity.
  apply IH, H.
Qed.

(** C10: a call of [py_sum_list] or [python_sum_list], on any head and
    however it ends, leaves every PyNode object as it was: no node is
    added or removed and each keeps its [value] and [next].  When reading
    [.value] and [.next] of an extension object only reads (it leaves the
    state of the extension modules as it finds it), the whole store is the
    same after the call as before it: the fields of the C and Rust nodes
    the traversal went through included. *)
Theorem sum_list_store_unchanged :
  forall fuel head s,
    heap (snd (py_sum_list fuel head s)) = heap s /\
    heap (snd (python_sum_list fuel head s)) = heap s /\
    (read_only_getters (foreign s) ->
     snd (py_sum_list fuel head s) = s /\
     snd (python_sum_list fuel head s) = s).
Proof.
  intros fuel head s. unfold python_sum_list, py_sum_list.
  split; [apply heap_frame_py_sum_loop|].
  split; [apply heap_frame_python_sum_loop|].
  intros H.
  split; [apply py_sum_loop_read_only, H|apply python_sum_loop_read_only, H].
Qed.

(** ** The list builder *)

Lemma chain_app h extra : forall cells r,
  chain h r cells -> chain (h ++ extra) r cells.
Proof.
  induction cells as [|[l v] rest IH]; intros r H; simpl in *; auto.
  destruct H as [Hr [nx [Hl Hrest]]]. split; auto.
  exists nx. split; auto.
  rewrite nth_error_app1; auto.
  apply nth_error_Some. congruence.
Qed.

Lemma range3_countdown n :
  0 < n ->
  range3 (n - 2) (-1) (-1) =
  map (fun j => Z.of_nat (Z.to_nat n - 1) - 1 - Z.of_nat j)
      (seq 0 (Z.to_nat n - 1)).
Proof.
  intros Hn. unfold range3.
  change (0 <? -1) with false. change (-1 <? 0) with true. cbv iota.
  change (- -1) with 1. rewrite Z.div_1_r.
  replace (Z.to_nat (n - 2 - -1 - -1 - 1)) with (Z.to_nat n - 1)%nat by lia.
  apply map_ext. intros j. lia.
Qed.

Lemma countdown_cons a :
  map (fun j => Z.of_nat (S a) - 1 - Z.of_nat j) (seq 0 (S a)) =
  Z.of_nat a :: map (fun j => Z.of_nat a - 1 - Z.of_nat j) (seq 0 a).
Proof.
  cbn [seq]. rewrite <- seq_shift. cbn [map]. rewrite map_map. f_equal.
  - lia.
  - apply map_ext. intros j. lia.
Qed.

Lemma cells_from_cons base m a :
  (a < m)%nat ->
  cells_from base m a =
  ((base + (m - 1 - a))%nat, Z.of_nat a) :: cells_from base m (S a).
Proof.
  intros Ha. unfold cells_from.
  replace (m - a)%nat with (S (m - S a)) by lia. reflexivity.
Qed.

(** The prepending loop: entered with the node of value [a] as head, it
    leaves the node of value 0 as head. *)
Lemma build_loop base m : forall a s,
  (a < m)%nat ->
  length (heap s) = (base + (m - a))%nat ->
  chain (heap s) (Some (PyObj (base + (m - 1 - a)))) (cells_from base m a) ->
  exists s',
    for_in (map (fun j => Z.of_nat a - 1 - Z.of_nat j) (seq 0 a))
           (fun i head => PyNode i (Some head))
           (PyObj (base + (m - 1 - a))) s
    = (Val (PyObj (base + (m - 1))), s') /\
    foreign s' = foreign s /\
    (exists extra, heap s' = heap s ++ extra) /\
    length (heap s') = (base + m)%nat /\
    chain (heap s') (Some (PyObj (base + (m - 1)))) (cells_from base m 0).
Proof.
  induction a as [|a IH]; intros s Ha Hlen Hchain.
  - exists s. cbn [seq map for_in]. rewrite Nat.sub_0_r in *. unfold ret.
    split; [reflexivity|]. split; [reflexivity|].
    split; [exists []; now rewrite app_nil_r|].
    split; [lia|exact Hchain].
  - rewrite countdown_cons. simpl for_in. unfold bind at 1. unfold PyNode at 1.
    set (nd := mk_py_node (Z.of_nat a) (Some (PyObj (base + (m - 1 - S a))))).
    set (s1 := mk_store (heap s ++ [nd]) (foreign s)).
    replace (length (heap s)) with (base + (m - 1 - a))%nat by lia.
    destruct (IH s1) as [s' (Hrun & Hf & [extra Hx] & Hl & Hc)].
    + lia.
    + subst s1. simpl. rewrite length_app. simpl. lia.
    + rewrite cells_from_cons by lia. simpl. split; auto.
      exists (Some (PyObj (base + (m - 1 - S a)))). split.
      * rewrite nth_error_app2 by lia.
        replace (base + (m - 1 - a) - length (heap s))%nat with 0%nat by lia.
        reflexivity.
      * apply chain_app. exact Hchain.
    + exists s'. rewrite Hrun.
      split; [reflexivity|]. split; [exact Hf|].
      split; [|split; [exact Hl|exact Hc]].
      exists ([nd] ++ extra). rewrite Hx. subst s1. simpl.
      now rewrite <- app_assoc.
Qed.

(** What [build_list(PyNode, n)] does for [n > 0], on any store. *)
Lemma build_list_run n s :
  0 < n ->
  exists s',
    build_list PyNode n s
    = (Val (PyObj (length (heap s) + (Z.to_nat n - 1))), s') /\
    foreign s' = foreign s /\
    (exists extra, heap s' = heap s ++ extra) /\
    length (heap s') = (length (heap s) + Z.to_nat n)%nat /\
    chain (heap s') (Some (PyObj (length (heap s) + (Z.to_nat n - 1))))
          (cells_from (length (heap s)) (Z.to_nat n) 0) /\
    nth_error (heap s') (length (heap s)) = Some (mk_py_node (n - 1) None).
Proof.
  intros Hn. set (base := length (heap s)). set (m := Z.to_nat n).
  unfold build_list. unfold bind at 1. unfold assert.
  replace (0 <? n) with true by (symmetry; apply Z.ltb_lt; exact Hn).
  unfold ret at 1. unfold bind at 1. unfold PyNode at 1. fold base.
  rewrite range3_countdown by exact Hn. fold m.
  set (nd := mk_py_node (n - 1) None).
  set (s1 := mk_store (heap s ++ [nd]) (foreign s)).
  assert (Hm : (0 < m)%nat) by (subst m; lia).
  destruct (build_loop base m (m - 1) s1) as [s' (Hrun & Hf & [extra Hx] & Hl & Hc)].
  - lia.
  - subst s1. simpl. rewrite length_app. simpl. fold base. lia.
  - replace (m - 1 - (m - 1))%nat with 0%nat by lia.
    unfold cells_from. replace (m - (m - 1))%nat with 1%nat by lia.
    simpl. replace (m - 1 - (m - 1))%nat with 0%nat by lia.
    split; [reflexivity|].
    exists None. split; [|reflexivity].
    rewrite Nat.add_0_r, nth_error_app2 by (fold base; lia).
    fold base. rewrite Nat.sub_diag. simpl. subst nd. do 2 f_equal.
    subst m. lia.
  - replace (m - 1 - (m - 1))%nat with 0%nat in Hrun by lia.
    rewrite Nat.add_0_r in Hrun.
    exists s'. rewrite Hrun.
    split; [reflexivity|]. split; [exact Hf|].
    split; [|split; [rewrite Hl; subst m; reflexivity|split; [exact Hc|]]].
    + exists ([nd] ++ extra). rewrite Hx. subst s1. simpl.
      now rewrite <- app_assoc.
    + rewrite Hx. subst s1. simpl. rewrite <- app_assoc.
      rewrite nth_error_app2 by (fold base; lia).
      fold base. now rewrite Nat.sub_diag.
Qed.

(** ** Sums along a chain *)

Lemma py_sum_loop_chain : forall cells fuel total r s,
  chain (heap s) r cells ->
  (length cells <= fuel)%nat ->
  py_sum_loop fuel total r s = (Val (total + sum_Z (map snd cells)), s).
Proof.
  induction cells as [|[l v] rest IH]; intros fuel total r s Hc Hf; simpl in Hc.
  - subst r. destruct fuel; simpl; unfold ret; now rewrite Z.add_0_r.
  - destruct Hc as [-> [nx [Hl Hrest]]].
    destruct fuel as [|fuel]; [simpl in Hf; lia|].
    simpl py_sum_loop. unfold bind at 1. simpl get_value. rewrite Hl.
    unfold bind at 1. simpl get_next. rewrite Hl. simpl value. simpl next.
    rewrite (IH fuel (total + v) nx s Hrest) by (simpl in Hf; lia).
    simpl. now rewrite Z.add_assoc.
Qed.

Lemma sum_Z_seq : forall k a,
  2 * sum_Z (map Z.of_nat (seq a k)) =
  Z.of_nat k * (2 * Z.of_nat a + Z.of_nat k - 1).
Proof.
  induction k as [|k IH]; intros a.
  - reflexivity.
  - simpl seq. simpl map. simpl sum_Z. fold (sum_Z (map Z.of_nat (seq (S a) k))).
    rewrite Z.mul_add_distr_l, IH. lia.
Qed.

Lemma sum_cells_from base m :
  sum_Z (map snd (cells_from base m 0)) = Z.of_nat m * (Z.of_nat m - 1) / 2.
Proof.
  unfold cells_from. rewrite map_map. simpl. rewrite Nat.sub_0_r.
  assert (H := sum_Z_seq m 0). simpl (Z.of_nat 0) in H.
  replace (Z.of_nat m * (Z.of_nat m - 1))
    with (sum_Z (map Z.of_nat (seq 0 m)) * 2) by lia.
  rewrite Z.div_mul by lia. reflexivity.
Qed.

(** C1: for every [n > 0], on any store, [build_list(PyNode, n)] returns a
    head on which [py_sum_list] and [python_sum_list] both return
    [n*(n-1)/2] (and leave the store as it is), given a step budget of at
    least [n] loop iterations. *)
Theorem build_list_sums :
  forall n s fuel,
    0 < n -> (Z.to_nat n <= fuel)%nat ->
    exists head s',
      build_list PyNode n s = (Val head, s') /\
      py_sum_list fuel (Some head) s' = (Val (n * (n - 1) / 2), s') /\
      python_sum_list fuel (Some head) s' = (Val (n * (n - 1) / 2), s').
Proof.
  intros n s fuel Hn Hfuel.
  destruct (build_list_run n s Hn) as [s' (Hrun & _ & _ & _ & Hc & _)].
  exists (PyObj (length (heap s) + (Z.to_nat n - 1))), s'.
  split; [exact Hrun|].
  assert (Hsum : py_sum_list fuel
                   (Some (PyObj (length (heap s) + (Z.to_nat n - 1)))) s'
                 = (Val (n * (n - 1) / 2), s')).
  { unfold py_sum_list. rewrite (py_sum_loop_chain _ fuel 0 _ s' Hc).
    - rewrite sum_cells_from. rewrite Z2Nat.id by lia. reflexivity.
    - unfold cells_from. rewrite length_map, length_seq. lia. }
  split; [exact Hsum|].
  unfold python_sum_list. rewrite python_sum_loop_eq. exact Hsum.
Qed.

(** C2: for every [n > 0], on any store, [build_list(PyNode, n)] returns
    the head of a chain of exactly [n] PyNode objects, pairwise distinct
    (so the list is acyclic), whose values read head-to-tail through [next]
    are 0, 1, ..., n-1, and whose last node (value n-1) has [next = None];
    the nodes are fresh and the objects already in the heap are untouched. *)
Theorem build_list_chain :
  forall n s,
    0 < n ->
    exists head s' cells,
      build_list PyNode n s = (Val head, s') /\
      chain (heap s') (Some head) cells /\
      length cells = Z.to_nat n /\
      NoDup (map fst cells) /\
      map snd cells = map Z.of_nat (seq 0 (Z.to_nat n)) /\
      (exists tail, last cells (0%nat, 0) = (tail, n - 1) /\
                    nth_error (heap s') tail = Some (mk_py_node (n - 1) None)) /\
      (exists fresh, heap s' = heap s ++ fresh /\ length fresh = Z.to_nat n).
Proof.
  intros n s Hn.
  destruct (build_list_run n s Hn)
    as [s' (Hrun & _ & [extra Hx] & Hlen & Hc & Htail)].
  set (base := length (heap s)) in *. set (m := Z.to_nat n) in *.
  exists (PyObj (base + (m - 1))), s', (cells_from base m 0).
  split; [exact Hrun|]. split; [exact Hc|].
  unfold cells_from. rewrite Nat.sub_0_r.
  split; [now rewrite length_map, length_seq|].
  split.
  { rewrite map_map. simpl.
    assert (Hnd : forall k a, (a + k <= m)%nat ->
              NoDup (map (fun v => (base + (m - 1 - v))%nat) (seq a k))).
    { induction k as [|k IH]; intros a Hak; simpl; constructor.
      - rewrite in_map_iff. intros [v [Hv Hin]]. apply in_seq in Hin. lia.
      - apply IH. lia. }
    apply Hnd. lia. }
  split; [rewrite map_map; reflexivity|].
  split.
  { exists base. split; [|exact Htail].
    assert (Hm : m = S (m - 1)) by (subst m; lia).
    replace (seq 0 m) with (seq 0 (m - 1) ++ [(m - 1)%nat])
      by (rewrite Hm at 3; now rewrite seq_S).
    rewrite map_app. cbn [map]. rewrite last_last.
    f_equal; [|subst m]; lia. }
  exists extra. split; [exact Hx|].
  apply (f_equal (@length _)) in Hx. rewrite length_app in Hx. lia.
Qed.

(** C6: for every [n <= 0] and every node class, [build_list] raises the
    assertion failure and leaves the store exactly as it was: the node
    class is never called, so no node is constructed. *)
Theorem build_list_nonpositive :
  forall (NodeClass : Z -> option ref -> comp store ref) n s,
    n <= 0 ->
    build_list NodeClass n s
    = (Raise (AssertionError
                ("List length must be positive, got " ++ str n)%string), s).
Proof.
  intros NodeClass n s Hn. unfold build_list, bind, assert.
  replace (0 <? n) with false by (symmetry; apply Z.ltb_ge; exact Hn).
  reflexivity.
Qed.

(** ** The bench runner *)

Lemma length_range k : length (range k) = Z.to_nat k.
Proof.
  unfold range, range3. change (0 <? 1) with true. cbv iota.
  rewrite length_map, length_seq, Z.div_1_r. f_equal. lia.
Qed.

Lemma call_val f head w v s1 :
  f head (objs w) = (Val v, s1) ->
  call (Function f) head w = (Val v, set_objs s1 (add_events [EvCall head] w)).
Proof.
  intros H. unfold call, bind, emit, in_store. cbn [objs add_events].
  now rewrite H.
Qed.

(** A loop of calls of a function that returns normally: one [EvCall] per
    element, nothing else recorded. *)
Lemma call_loop inv f head :
  returns_normally inv f head ->
  forall (xs : list Z) w,
    inv (objs w) ->
    exists s',
      inv s' /\
      for_in xs (fun _ _ => _ <- call (Function f) head ;; ret tt) tt w
      = (Val tt, add_events (repeat (EvCall head) (length xs)) (set_objs s' w)).
Proof.
  intros Hf. induction xs as [|x xs IH]; intros w Hw.
  - exists (objs w). split; [exact Hw|].
    simpl. unfold ret, add_events, set_objs. simpl.
    rewrite app_nil_r. now destruct w.
  - cbn [for_in].
    destruct (Hf (objs w) Hw) as [v [s1 [Hs1 Hi1]]].
    destruct (IH (set_objs s1 (add_events [EvCall head] w)) Hi1)
      as [s' [Hi' Hs']].
    exists s'. split; [exact Hi'|].
    rewrite (bind_val _ _ w tt (set_objs s1 (add_events [EvCall head] w))).
    + rewrite Hs'. f_equal.
      unfold add_events, set_objs. cbn. f_equal. now rewrite <- app_assoc.
    + rewrite (bind_val _ _ w v _ (call_val f head w v s1 Hs1)). reflexivity.
Qed.

(** C3 (amended): when [iterations > 0] and every call [fn(head)] of the
    run returns normally (the stores the run goes through satisfy an
    invariant [inv] under which [fn(head)] returns), [bench] makes exactly
    1000 calls, reads the clock, makes exactly [iterations] calls, reads
    the clock again, prints the benchmark line and returns the elapsed
    time divided by [iterations]; the trace grows by exactly these events,
    [1000 + iterations] calls in all. *)
Theorem bench_calls :
  forall inv label f head iterations w,
    0 < iterations ->
    inv (objs w) ->
    returns_normally inv f head ->
    exists s',
      let t0 := clock w (ticks w) in
      let t1 := clock w (S (ticks w)) in
      let ns_per := int_truediv (t1 - t0) iterations in
      inv s' /\
      bench label (Function f) head iterations w
      = (Val ns_per,
         mk_world s' (env w) (clock w) (S (S (ticks w)))
           (trace w ++ repeat (EvCall head) 1000
                    ++ [EvClock t0]
                    ++ repeat (EvCall head) (Z.to_nat iterations)
                    ++ [EvClock t1; EvPrint (BenchLine label ns_per)])).
Proof.
  intros inv label f head iterations w Hit Hw Hf.
  unfold bench. unfold bind at 1. unfold assert at 1.
  replace (0 <? iterations) with true by (symmetry; apply Z.ltb_lt; exact Hit).
  unfold ret at 1. unfold bind at 1. cbn [callable assert]. unfold ret at 1.
  unfold bind at 1.
  destruct (call_loop inv f head Hf (range 1000) w Hw) as [s1 [Hi1 H1]].
  rewrite H1. rewrite length_range. change (Z.to_nat 1000) with 1000%nat.
  set (w1 := add_events (repeat (EvCall head) 1000) (set_objs s1 w)).
  unfold bind at 1. unfold perf_counter_ns at 1.
  set (w2 := mk_world (objs w1) (env w1) (clock w1) (S (ticks w1))
                      (trace w1 ++ [EvClock (clock w1 (ticks w1))])).
  unfold bind at 1.
  destruct (call_loop inv f head Hf (range iterations) w2 Hi1) as [s2 [Hi2 H2]].
  rewrite H2. rewrite length_range.
  unfold bind at 1. unfold perf_counter_ns at 1.
  unfold bind at 1. unfold int_div.
  replace (iterations =? 0) with false by (symmetry; apply Z.eqb_neq; lia).
  unfold ret at 1. unfold bind at 1. unfold print, emit. unfold ret.
  exists s2. cbv zeta. split; [exact Hi2|].
  unfold w2, w1, add_events, set_objs.
  cbn [objs env clock ticks trace]. do 2 f_equal.
  rewrite <- !app_assoc. reflexivity.
Qed.

(** C7: when [iterations <= 0] or [fn] is not callable, [bench] raises an
    assertion failure (on [iterations] when both are wrong) and the world
    is exactly as before: no call of [fn], no clock reading, nothing
    printed. *)
Theorem bench_invalid_argument :
  forall label fn head iterations w,
    iterations <= 0 \/ callable fn = false ->
    bench label fn head iterations w
    = (Raise (AssertionError
                (if 0 <? iterations
                 then ("fn must be callable, got " ++ type_repr fn)%string
                 else ("Iterations must be positive, got "
                       ++ str iterations)%string)),
       w).
Proof.
  intros label fn head iterations w H.
  unfold bench. unfold bind at 1. unfold assert at 1.
  destruct (0 <? iterations) eqn:Hit.
  - destruct H as [H|H]; [apply Z.ltb_lt in Hit; lia|].
    unfold ret at 1. unfold bind at 1. unfold assert. rewrite H.
    reflexivity.
  - reflexivity.
Qed.

(** ** The falsification check *)

(** C4: the check prints the hypothesis-is-wrong message exactly when
    [rust_native < c_native]; otherwise it prints the per-node overhead
    [(rust_native - c_native) / N] and the consistency message.  (1000.0
    is not zero, so the division by [N] raises nothing.) *)
Theorem falsification_branch :
  forall rust_native c_native w,
    float_is_zero (float_of_int N) = false ->
    falsification rust_native c_native w
    = (Val tt,
       add_events
         (EvPrint (Text (nl ++ "--- Falsification ---")%string) ::
          if float_lt rust_native c_native then
            [EvPrint (Text "UNEXPECTED: Rust native FASTER than C native.");
             EvPrint (Text "The PyO3 boundary-crossing hypothesis is WRONG for this workload.")]
          else
            [EvPrint (SlowerLine
                        (float_sub rust_native c_native)
                        (float_div (float_sub rust_native c_native)
                                   (float_of_int N)));
             EvPrint (Text "Consistent with PyO3 extract/borrow overhead per node.")])
         w).
Proof.
  intros rust_native c_native w HN.
  unfold falsification. unfold bind at 1. unfold print at 1, emit at 1.
  destruct (float_lt rust_native c_native).
  - unfold bind, print, emit, add_events. cbn. do 2 f_equal.
    now rewrite <- !app_assoc.
  - unfold bind at 1. unfold truediv. rewrite HN. unfold ret at 1.
    unfold bind, print, emit, add_events. cbn. do 2 f_equal.
    now rewrite <- !app_assoc.
Qed.

(** ** The main run *)

Lemma quiet_ret {A} (a : A) : quiet (ret a).
Proof. intros w. split; reflexivity. Qed.

Lemma quiet_raise {A} e : quiet (@raise world A e).
Proof. intros w. split; reflexivity. Qed.

Lemma quiet_in_store {A} (m : comp store A) : quiet (in_store m).
Proof.
  intros w. unfold in_store. destruct (m (objs w)). split; reflexivity.
Qed.

Lemma quiet_bind {A B} (m : comp world A) (k : A -> comp world B) :
  quiet m -> (forall a, quiet (k a)) -> quiet (bind m k).
Proof.
  intros Hm Hk w. unfold bind. destruct (Hm w) as [Ht Hc].
  destruct (m w) as [[a| |] w1]; simpl in *; auto.
  destruct (Hk a w1) as [Ht' Hc']. split; congruence.
Qed.

Lemma quiet_assert cond (msg : comp world string) :
  quiet msg -> quiet (assert cond msg).
Proof.
  intros Hm. unfold assert. destruct cond.
  - apply quiet_ret.
  - apply quiet_bind; auto. intros m. apply quiet_raise.
Qed.

Lemma quiet_assert_sum name f lst expected :
  quiet (assert_sum name f lst expected).
Proof.
  unfold assert_sum. apply quiet_bind; [apply quiet_in_store|intros got].
  apply quiet_assert. apply quiet_bind; [apply quiet_in_store|intros again].
  apply quiet_ret.
Qed.

Lemma quiet_build_lists : quiet build_lists.
Proof.
  unfold build_lists.
  repeat (apply quiet_bind; [apply quiet_in_store|intros ?]).
  apply quiet_ret.
Qed.

(** One assertion of the verification: it passes when the sum returns the
    expected value, and stops the run otherwise. *)
Lemma assert_sum_cases name f lst expected w :
  (exists s1, f (Some lst) (objs w) = (Val expected, s1) /\
              assert_sum name f lst expected w = (Val tt, set_objs s1 w))
  \/
  (~ (exists s1, f (Some lst) (objs w) = (Val expected, s1)) /\
   aborted (fst (assert_sum name f lst expected w))).
Proof.
  destruct (f (Some lst) (objs w)) as [[v| |] s1] eqn:E.
  - destruct (v =? expected) eqn:Ev.
    + left. apply Z.eqb_eq in Ev. subst v. exists s1. split; [reflexivity|].
      unfold assert_sum, bind, in_store. rewrite E, Z.eqb_refl. reflexivity.
    + right. split.
      * intros [s1' H]. inversion H. subst v. rewrite Z.eqb_refl in Ev.
        discriminate.
      * unfold assert_sum, assert, in_store, bind. rewrite E, Ev.
        cbn beta. cbn [objs set_objs].
        destruct (f (Some lst) s1) as [[v'| |] s2]; exact I.
  - right. split; [intros [s1' H]; discriminate|].
    unfold assert_sum, bind, in_store. rewrite E. exact I.
  - right. split; [intros [s1' H]; discriminate|].
    unfold assert_sum, bind, in_store. rewrite E. exact I.
Qed.

Ltac verify_step w0 E :=
  match goal with
  | |- aborted (fst (bind (assert_sum ?name ?f ?lst ?e) ?k ?w)) /\ _ =>
      let s := fresh "s" in
      let R := fresh "R" in
      let Hno := fresh "Hno" in
      let Hab := fresh "Hab" in
      destruct (assert_sum_cases name f lst e w)
        as [[s [E R]] | [Hno Hab]];
      [ rewrite (bind_val _ k w tt _ R); cbn [objs set_objs] in E
      | destruct (bind_aborted (assert_sum name f lst e) k w Hab) as [? ->];
        split; [assumption|];
        destruct (quiet_assert_sum name f lst e w) as [-> ->];
        split; reflexivity ]
  end.

(** When some sum disagrees, the verification stops the run and has
    recorded nothing. *)
Lemma verify_aborts fuel py_list c_list rust_list w :
  ~ sums_agree fuel py_list c_list rust_list (objs w) ->
  aborted (fst (verify fuel py_list c_list rust_list w)) /\
  trace (snd (verify fuel py_list c_list rust_list w)) = trace w /\
  ticks (snd (verify fuel py_list c_list rust_list w)) = ticks w.
Proof.
  intros Hno. unfold verify. cbv zeta.
  verify_step w E1. verify_step w E2. verify_step w E3.
  verify_step w E4. verify_step w E5. verify_step w E6.
  exfalso. apply Hno. unfold sums_agree. cbv zeta.
  exists s, s0, s1, s2, s3, s4. repeat split; assumption.
Qed.

(** When the six sums agree, the verification passes. *)
Lemma verify_passes fuel py_list c_list rust_list w :
  sums_agree fuel py_list c_list rust_list (objs w) ->
  exists w', verify fuel py_list c_list rust_list w = (Val tt, w').
Proof.
  unfold sums_agree. cbv zeta.
  intros (s1 & s2 & s3 & s4 & s5 & s6 & E1 & E2 & E3 & E4 & E5 & E6).
  unfold verify. cbv zeta.
  assert (Hstep : forall name f lst e (k : unit -> comp world unit) w0 s0,
            f (Some lst) (objs w0) = (Val e, s0) ->
            bind (assert_sum name f lst e) k w0 = k tt (set_objs s0 w0)).
  { intros name f lst e k w0 s0 Hf. apply bind_val.
    unfold assert_sum, bind, in_store. rewrite Hf, Z.eqb_refl. reflexivity. }
  rewrite (Hstep _ _ _ _ _ _ _ E1).
  rewrite (Hstep _ _ _ _ _ _ s2) by exact E2.
  rewrite (Hstep _ _ _ _ _ _ s3) by exact E3.
  rewrite (Hstep _ _ _ _ _ _ s4) by exact E4.
  rewrite (Hstep _ _ _ _ _ _ s5) by exact E5.
  rewrite (Hstep _ _ _ _ _ _ s6) by exact E6.
  unfold bind, print, emit. eexists. reflexivity.
Qed.

Lemma environment_report_run w :
  exists lines,
    environment_report w
    = (Val tt, add_events (map (fun l => EvPrint (Text l)) lines) w).
Proof.
  unfold environment_report, get_compiler_version, get_rust_version.
  unfold bind, print, emit, add_events. cbn beta iota.
  cbn [trace env objs clock ticks].
  destruct (cc_version (env w)) as [cc|]; cbn [trace env objs clock ticks];
    destruct (rustc_version (env w)) as [rustc|];
    eexists [_; _; _; _; _; _; _; _];
    cbn [map trace env objs clock ticks]; rewrite <- !app_assoc; reflexivity.
Qed.

(** C5: when, on the lists just built, some of the six sums does not
    return [N*(N-1)/2], the main run stops without a value, and all it has
    recorded are text lines: no call through [bench], no clock reading, no
    benchmark line. *)
Theorem verification_gates_timing :
  forall fuel w py_list c_list rust_list w1,
    (environment_report ;; build_lists) w
    = (Val (py_list, c_list, rust_list), w1) ->
    ~ sums_agree fuel py_list c_list rust_list (objs w1) ->
    exists r w',
      main fuel w = (r, w') /\
      aborted r /\
      ticks w' = ticks w /\
      exists new,
        trace w' = trace w ++ new /\
        Forall (fun ev => bench_event ev = false) new.
Proof.
  intros fuel w py_list c_list rust_list w1 Hbuild Hno.
  destruct (verify_aborts fuel py_list c_list rust_list w1 Hno)
    as (Hab & Htr & Htk).
  assert (Hmain : main fuel w
          = bind (verify fuel py_list c_list rust_list)
                 (fun _ =>
                    t <- benchmark fuel py_list c_list rust_list ;;
                    ratios t ;;
                    falsification (rust_native t) (c_native t)) w1).
  { unfold main.
    rewrite <- (bind_assoc environment_report (fun _ => build_lists)).
    rewrite (bind_val _ _ w _ w1 Hbuild). reflexivity. }
  destruct (bind_aborted (verify fuel py_list c_list rust_list)
              (fun _ =>
                 t <- benchmark fuel py_list c_list rust_list ;;
                 ratios t ;;
                 falsification (rust_native t) (c_native t)) w1 Hab)
    as [Hab' Hsnd].
  rewrite <- Hmain in Hab', Hsnd.
  exists (fst (main fuel w)), (snd (main fuel w)).
  split; [destruct (main fuel w); reflexivity|].
  split; [exact Hab'|].
  rewrite Hsnd, Htr, Htk.
  apply bind_val_inv in Hbuild. destruct Hbuild as (u & w0 & Henv' & Hb).
  destruct (environment_report_run w) as [lines Henv].
  rewrite Henv in Henv'. injection Henv' as _ <-.
  destruct (quiet_build_lists
              (add_events (map (fun l => EvPrint (Text l)) lines) w))
    as [Hqt Hqk].
  rewrite Hb in Hqt, Hqk. cbn [fst snd] in Hqt, Hqk.
  unfold add_events in Hqt, Hqk. cbn [trace ticks] in Hqt, Hqk.
  split; [exact Hqk|].
  exists (map (fun l => EvPrint (Text l)) lines). split; [exact Hqt|].
  apply Forall_forall. intros ev Hin. apply in_map_iff in Hin.
  destruct Hin as [l [<- _]]. reflexivity.
Qed.

(** A main run that completes went through the benchmark phase and the
    ratios, and ended with the falsification check on the timings of
    "Rust loop, Rust nodes" and "C loop, C nodes". *)
Lemma main_completes fuel w w' :
  main fuel w = (Val tt, w') ->
  exists py_list c_list rust_list w2 t w3 w4,
    benchmark fuel py_list c_list rust_list w2 = (Val t, w3) /\
    ratios t w3 = (Val tt, w4) /\
    falsification (rust_native t) (c_native t) w4 = (Val tt, w').
Proof.
  unfold main. intros H.
  apply bind_val_inv in H. destruct H as (u & wa & _ & H).
  apply bind_val_inv in H. destruct H as ([[py_list c_list] rust_list] & wb & _ & H).
  apply bind_val_inv in H. destruct H as (u1 & w2 & _ & H).
  apply bind_val_inv in H. destruct H as (t & w3 & Hb & H).
  apply bind_val_inv in H. destruct H as ([] & w4 & Hr & H).
  exists py_list, c_list, rust_list, w2, t, w3, w4. auto.
Qed.

Lemma benchmark_timings fuel py_list c_list rust_list w2 t w3 :
  benchmark fuel py_list c_list rust_list w2 = (Val t, w3) ->
  exists wc wr wr',
    bench "C loop, C nodes" (Function (fun h => in_ext (c_sum_list h)))
          (Some c_list) M wc = (Val (c_native t), wr) /\
    bench "Rust loop, Rust nodes" (Function (fun h => in_ext (rust_sum_list h)))
          (Some rust_list) M wr = (Val (rust_native t), wr').
Proof.
  unfold benchmark. intros H.
  do 4 (apply bind_val_inv in H; destruct H as (? & ? & _ & H)).
  apply bind_val_inv in H. destruct H as (t1 & wc & _ & H).
  apply bind_val_inv in H. destruct H as (t2 & wr & Hc & H).
  apply bind_val_inv in H. destruct H as (t3 & wr' & Hr & H).
  do 4 (apply bind_val_inv in H; destruct H as (? & ? & _ & H)).
  unfold ret in H. injection H as <- _.
  exists wc, wr, wr'. split; assumption.
Qed.

(** ** Further properties of the traversals *)

Lemma python_sum_loop_chain : forall cells fuel total r s,
  chain (heap s) r cells ->
  (length cells <= fuel)%nat ->
  python_sum_loop fuel total r s = (Val (total + sum_Z (map snd cells)), s).
Proof.
  induction cells as [|[l v] rest IH]; intros fuel total r s Hc Hf; simpl in Hc.
  - subst r. destruct fuel; simpl; unfold ret; now rewrite Z.add_0_r.
  - destruct Hc as [-> [nx [Hl Hrest]]].
    destruct fuel as [|fuel]; [simpl in Hf; lia|].
    simpl python_sum_loop. unfold bind at 1. simpl get_value. rewrite Hl.
    unfold bind at 1. simpl get_next. rewrite Hl. simpl value. simpl next.
    rewrite (IH fuel (total + v) nx s Hrest) by (simpl in Hf; lia).
    simpl. now rewrite Z.add_assoc.
Qed.

Lemma py_sum_loop_short : forall cells fuel total r s,
  chain (heap s) r cells ->
  (fuel < length cells)%nat ->
  py_sum_loop fuel total r s = (OutOfFuel, s).
Proof.
  induction cells as [|[l v] rest IH]; intros fuel total r s Hc Hf; simpl in *.
  - lia.
  - destruct Hc as [-> [nx [Hl Hrest]]].
    destruct fuel as [|fuel]; [reflexivity|].
    simpl py_sum_loop. unfold bind at 1. simpl get_value. rewrite Hl.
    unfold bind at 1. simpl get_next. rewrite Hl. simpl value. simpl next.
    apply IH; [exact Hrest|lia].
Qed.

Lemma python_sum_loop_short : forall cells fuel total r s,
  chain (heap s) r cells ->
  (fuel < length cells)%nat ->
  python_sum_loop fuel total r s = (OutOfFuel, s).
Proof.
  induction cells as [|[l v] rest IH]; intros fuel total r s Hc Hf; simpl in *.
  - lia.
  - destruct Hc as [-> [nx [Hl Hrest]]].
    destruct fuel as [|fuel]; [reflexivity|].
    simpl python_sum_loop. unfold bind at 1. simpl get_value. rewrite Hl.
    unfold bind at 1. simpl get_next. rewrite Hl. simpl value. simpl next.
    apply IH; [exact Hrest|lia].
Qed.

(** X1: on any chain of PyNode objects (however it was built), both
    traversals run the loop body once per node: with a budget of at least
    that many iterations they return the sum of the values, with less they
    are still running; the store is untouched either way. *)
Theorem sum_list_chain :
  forall cells fuel head s,
    chain (heap s) head cells ->
    py_sum_list fuel head s
    = (if (length cells <=? fuel)%nat
       then Val (sum_Z (map snd cells)) else OutOfFuel, s) /\
    python_sum_list fuel head s
    = (if (length cells <=? fuel)%nat
       then Val (sum_Z (map snd cells)) else OutOfFuel, s).
Proof.
  intros cells fuel head s Hc. unfold py_sum_list, python_sum_list.
  destruct (length cells <=? fuel)%nat eqn:E.
  - apply Nat.leb_le in E.
    rewrite (py_sum_loop_chain cells fuel 0 head s Hc E).
    rewrite (python_sum_loop_chain cells fuel 0 head s Hc E).
    split; reflexivity.
  - apply Nat.leb_gt in E.
    rewrite (py_sum_loop_short cells fuel 0 head s Hc E).
    rewrite (python_sum_loop_short cells fuel 0 head s Hc E).
    split; reflexivity.
Qed.

Lemma py_sum_loop_cycle (on_cycle : nat -> Prop) s :
  (forall l, on_cycle l ->
     exists v l', nth_error (heap s) l = Some (mk_py_node v (Some (PyObj l')))
                  /\ on_cycle l') ->
  forall fuel total l,
    on_cycle l ->
    py_sum_loop fuel total (Some (PyObj l)) s = (OutOfFuel, s).
Proof.
  intros Hstep. induction fuel as [|fuel IH]; intros total l Hl.
  - reflexivity.
  - destruct (Hstep l Hl) as (v & l' & Hnth & Hl').
    simpl py_sum_loop. unfold bind at 1. simpl get_value. rewrite Hnth.
    unfold bind at 1. simpl get_next. rewrite Hnth. simpl value. simpl next.
    apply IH. exact Hl'.
Qed.

Lemma python_sum_loop_cycle (on_cycle : nat -> Prop) s :
  (forall l, on_cycle l ->
     exists v l', nth_error (heap s) l = Some (mk_py_node v (Some (PyObj l')))
                  /\ on_cycle l') ->
  forall fuel total l,
    on_cycle l ->
    python_sum_loop fuel total (Some (PyObj l)) s = (OutOfFuel, s).
Proof.
  intros Hstep. induction fuel as [|fuel IH]; intros total l Hl.
  - reflexivity.
  - destruct (Hstep l Hl) as (v & l' & Hnth & Hl').
    simpl python_sum_loop. unfold bind at 1. simpl get_value. rewrite Hnth.
    unfold bind at 1. simpl get_next. rewrite Hnth. simpl value. simpl next.
    apply IH. exact Hl'.
Qed.

(** X2: on a cyclic list the traversals never return.  When the head lies
    in a set of PyNode objects each of whose [next] is again an object of
    the set, [None] is never reached: whatever the budget, both loops are
    still running, and the store is untouched. *)
Theorem sum_list_cycle :
  forall (on_cycle : nat -> Prop) s,
    (forall l, on_cycle l ->
       exists v l', nth_error (heap s) l = Some (mk_py_node v (Some (PyObj l')))
                    /\ on_cycle l') ->
    forall fuel l,
      on_cycle l ->
      py_sum_list fuel (Some (PyObj l)) s = (OutOfFuel, s) /\
      python_sum_list fuel (Some (PyObj l)) s = (OutOfFuel, s).
Proof.
  intros on_cycle s Hstep fuel l Hl. unfold py_sum_list, python_sum_list.
  split.
  - apply (py_sum_loop_cycle on_cycle s Hstep). exact Hl.
  - apply (python_sum_loop_cycle on_cycle s Hstep). exact Hl.
Qed.

(** ** Further properties of the list builder *)

(** X3: two lists built one after the other coexist: the second
    [build_list(PyNode, m)] returns a different head and leaves the first
    list as it was, so each list still sums to its own closed form. *)
Theorem build_list_twice :
  forall n m s fuel,
    0 < n -> 0 < m ->
    (Z.to_nat n <= fuel)%nat -> (Z.to_nat m <= fuel)%nat ->
    exists h1 s1 h2 s2,
      build_list PyNode n s = (Val h1, s1) /\
      build_list PyNode m s1 = (Val h2, s2) /\
      h1 <> h2 /\
      py_sum_list fuel (Some h1) s2 = (Val (n * (n - 1) / 2), s2) /\
      py_sum_list fuel (Some h2) s2 = (Val (m * (m - 1) / 2), s2).
Proof.
  intros n m s fuel Hn Hm Hfn Hfm.
  destruct (build_list_run n s Hn) as [s1 (R1 & _ & _ & L1 & C1 & _)].
  destruct (build_list_run m s1 Hm) as [s2 (R2 & _ & [extra X2] & _ & C2 & _)].
  exists (PyObj (length (heap s) + (Z.to_nat n - 1))), s1,
         (PyObj (length (heap s1) + (Z.to_nat m - 1))), s2.
  split; [exact R1|]. split; [exact R2|]. split.
  { intros H. injection H as H. lia. }
  split.
  - unfold py_sum_list.
    rewrite (py_sum_loop_chain (cells_from (length (heap s)) (Z.to_nat n) 0)
               fuel 0 _ s2).
    + rewrite sum_cells_from, Z2Nat.id by lia. reflexivity.
    + rewrite X2. apply chain_app. exact C1.
    + unfold cells_from. rewrite length_map, length_seq. lia.
  - unfold py_sum_list.
    rewrite (py_sum_loop_chain (cells_from (length (heap s1)) (Z.to_nat m) 0)
               fuel 0 _ s2 C2).
    + rewrite sum_cells_from, Z2Nat.id by lia. reflexivity.
    + unfold cells_from. rewrite length_map, length_seq. lia.
Qed.

(** ** Further properties of the bench runner *)

Definition is_print (ev : event) : bool :=
  match ev with
  | EvPrint _ => true
  | _ => false
  end.

(** A computation that may call and read the clock but prints nothing. *)
Definition silent {A} (m : comp world A) : Prop :=
  forall w, exists new,
    trace (snd (m w)) = trace w ++ new /\
    Forall (fun ev => is_print ev = false) new.

(** A computation that has printed nothing whenever it stops without a
    value. *)
Definition silent_when_aborted {A} (m : comp world A) : Prop :=
  forall w, aborted (fst (m w)) ->
    exists new,
      trace (snd (m w)) = trace w ++ new /\
      Forall (fun ev => is_print ev = false) new.

Lemma silent_ret {A} (a : A) : silent (ret a).
Proof. intros w. exists []. rewrite app_nil_r. split; [reflexivity|constructor]. Qed.

Lemma silent_raise {A} e : silent (@raise world A e).
Proof. intros w. exists []. rewrite app_nil_r. split; [reflexivity|constructor]. Qed.

Lemma silent_bind {A B} (m : comp world A) (k : A -> comp world B) :
  silent m -> (forall a, silent (k a)) -> silent (bind m k).
Proof.
  intros Hm Hk w. unfold bind. destruct (Hm w) as [new1 [H1 F1]].
  destruct (m w) as [[a| |] w1]; cbn [fst snd] in *;
    try solve [exists new1; auto].
  destruct (Hk a w1) as [new2 [H2 F2]].
  exists (new1 ++ new2). split.
  - rewrite H2, H1. now rewrite app_assoc.
  - apply Forall_app. auto.
Qed.

Lemma silent_in_store {A} (m : comp store A) : silent (in_store m).
Proof.
  intros w. exists []. rewrite app_nil_r. split; [|constructor].
  unfold in_store. destruct (m (objs w)). reflexivity.
Qed.

Lemma silent_call fn head : silent (call fn head).
Proof.
  destruct fn as [f|ty]; simpl.
  - apply silent_bind; [|intros _; apply silent_in_store].
    intros w. exists [EvCall head]. split; [reflexivity|].
    repeat constructor.
  - apply silent_raise.
Qed.

Lemma silent_for_in {X A} (body : X -> A -> comp world A) :
  (forall x a, silent (body x a)) ->
  forall xs a, silent (for_in xs body a).
Proof.
  intros Hb. induction xs as [|x xs IH]; intros a; simpl.
  - apply silent_ret.
  - apply silent_bind; [apply Hb|intros a'; apply IH].
Qed.

Lemma silent_perf_counter_ns : silent perf_counter_ns.
Proof.
  intros w. exists [EvClock (clock w (ticks w))]. split; [reflexivity|].
  repeat constructor.
Qed.

Lemma silent_assert_ret cond (msg : string) : silent (assert cond (ret msg)).
Proof.
  unfold assert. destruct cond; [apply silent_ret|].
  apply silent_bind; [apply silent_ret|intros m; apply silent_raise].
Qed.

Lemma silent_int_div a b : silent (@int_div world a b).
Proof.
  unfold int_div. destruct (b =? 0); [apply silent_raise|apply silent_ret].
Qed.

Lemma silent_when_aborted_bind {A B} (m : comp world A)
      (k : A -> comp world B) :
  silent m -> (forall a, silent_when_aborted (k a)) ->
  silent_when_aborted (bind m k).
Proof.
  intros Hm Hk w. unfold bind. destruct (Hm w) as [new1 [H1 F1]].
  destruct (m w) as [[a| |] w1]; cbn [fst snd] in *;
    try solve [intros _; exists new1; auto].
  intros Hab. destruct (Hk a w1 Hab) as [new2 [H2 F2]].
  exists (new1 ++ new2). split.
  - rewrite H2, H1. now rewrite app_assoc.
  - apply Forall_app. auto.
Qed.

(** X5: [bench] prints its line only when it returns.  Whatever [fn],
    [head] and [iterations] are, when [bench] stops without a value (an
    assertion failed, or a call of [fn] raised or did not finish), nothing
    has been printed: the events it added are calls and clock readings
    only. *)
Theorem bench_aborted_prints_nothing :
  forall label fn head iterations w,
    aborted (fst (bench label fn head iterations w)) ->
    exists new,
      trace (snd (bench label fn head iterations w)) = trace w ++ new /\
      Forall (fun ev => is_print ev = false) new.
Proof.
  intros label fn head iterations.
  change (silent_when_aborted (bench label fn head iterations)).
  unfold bench.
  apply silent_when_aborted_bind; [apply silent_assert_ret|intros _].
  apply silent_when_aborted_bind; [apply silent_assert_ret|intros _].
  apply silent_when_aborted_bind.
  { apply silent_for_in. intros x a.
    apply silent_bind; [apply silent_call|intros _; apply silent_ret]. }
  intros _.
  apply silent_when_aborted_bind; [apply silent_perf_counter_ns|intros t0].
  apply silent_when_aborted_bind.
  { apply silent_for_in. intros x a.
    apply silent_bind; [apply silent_call|intros _; apply silent_ret]. }
  intros _.
  apply silent_when_aborted_bind; [apply silent_perf_counter_ns|intros t1].
  apply silent_when_aborted_bind; [apply silent_int_div|intros ns_per].
  intros w Hab. exfalso. exact Hab.
Qed.

Lemma assert_val_inv {St} cond (msg : comp St string) s u s' :
  assert cond msg s = (Val u, s') -> cond = true /\ s' = s.
Proof.
  unfold assert. destruct cond.
  - unfold ret. intros H. injection H as _ <-. auto.
  - unfold bind, raise. destruct (msg s) as [[m| |] s1]; discriminate.
Qed.

Lemma call_val_inv fn head w v w' :
  call fn head w = (Val v, w') ->
  exists f s1,
    fn = Function f /\
    f head (objs w) = (Val v, s1) /\
    w' = set_objs s1 (add_events [EvCall head] w).
Proof.
  destruct fn as [f|ty]; simpl; [|discriminate].
  unfold bind, emit, in_store. cbn [objs add_events].
  destruct (f head (objs w)) as [[v'| |] s1] eqn:E; try discriminate.
  intros H. injection H as <- <-. exists f, s1. auto.
Qed.

Lemma call_loop_val_inv fn head : forall (xs : list Z) w u w',
  for_in xs (fun _ _ => _ <- call fn head ;; ret tt) tt w = (Val u, w') ->
  exists s',
    w' = add_events (repeat (EvCall head) (length xs)) (set_objs s' w).
Proof.
  induction xs as [|x xs IH]; intros w u w' H.
  - exists (objs w). simpl in H. unfold ret in H. injection H as _ <-.
    unfold add_events, set_objs. simpl. rewrite app_nil_r. now destruct w.
  - cbn [for_in] in H.
    apply bind_val_inv in H. destruct H as (a & w1 & Hbody & Hrest).
    apply bind_val_inv in Hbody. destruct Hbody as (v & w1' & Hcall & Hret).
    unfold ret in Hret. injection Hret as <- <-.
    apply call_val_inv in Hcall. destruct Hcall as (f & s1 & _ & _ & ->).
    apply IH in Hrest. destruct Hrest as [s' ->].
    exists s'. unfold add_events, set_objs. cbn [objs env clock ticks trace].
    cbn [length repeat]. f_equal. rewrite <- app_assoc. reflexivity.
Qed.

(** X6: whenever [bench] returns a value, [iterations] was positive, [fn]
    was callable, and the run made exactly 1000 calls, one clock reading,
    exactly [iterations] calls, a second clock reading and one print, in
    this order; the value is the difference of the two readings divided by
    [iterations], and it is the value on the printed line. *)
Theorem bench_returns_inv :
  forall label fn head iterations w ns_per w',
    bench label fn head iterations w = (Val ns_per, w') ->
    0 < iterations /\
    callable fn = true /\
    ns_per = int_truediv (clock w (S (ticks w)) - clock w (ticks w)) iterations /\
    ticks w' = S (S (ticks w)) /\
    trace w'
    = trace w ++ repeat (EvCall head) 1000
              ++ [EvClock (clock w (ticks w))]
              ++ repeat (EvCall head) (Z.to_nat iterations)
              ++ [EvClock (clock w (S (ticks w)));
                  EvPrint (BenchLine label ns_per)].
Proof.
  intros label fn head iterations w ns_per w' H. unfold bench in H.
  apply bind_val_inv in H. destruct H as (u1 & wa & Ha1 & H).
  apply assert_val_inv in Ha1. destruct Ha1 as [Hit ->].
  apply bind_val_inv in H. destruct H as (u2 & wa & Ha2 & H).
  apply assert_val_inv in Ha2. destruct Ha2 as [Hcall ->].
  apply bind_val_inv in H. destruct H as (u3 & w1 & Hl1 & H).
  apply call_loop_val_inv in Hl1. destruct Hl1 as [s1 ->].
  rewrite length_range in H. change (Z.to_nat 1000) with 1000%nat in H.
  apply bind_val_inv in H. destruct H as (t0 & w2 & Ht0 & H).
  unfold perf_counter_ns in Ht0. injection Ht0 as <- <-.
  apply bind_val_inv in H. destruct H as (u4 & w3 & Hl2 & H).
  apply call_loop_val_inv in Hl2. destruct Hl2 as [s2 ->].
  rewrite length_range in H.
  apply bind_val_inv in H. destruct H as (t1 & w4 & Ht1 & H).
  unfold perf_counter_ns in Ht1. injection Ht1 as <- <-.
  apply bind_val_inv in H. destruct H as (q & w5 & Hq & H).
  apply Z.ltb_lt in Hit.
  unfold int_div in Hq.
  replace (iterations =? 0) with false in Hq
    by (symmetry; apply Z.eqb_neq; lia).
  unfold ret in Hq. injection Hq as <- <-.
  unfold bind, print, emit, ret in H. injection H as <- <-.
  unfold add_events, set_objs. cbn [objs env clock ticks trace].
  split; [exact Hit|]. split; [exact Hcall|]. split; [reflexivity|].
  split; [reflexivity|].
  rewrite <- !app_assoc. reflexivity.
Qed.

(** ** Further properties of the main run *)

Lemma ratios_run :
  forall t w,
    ratios t w
    = if float_is_zero (c_native t)
      then (Raise ZeroDivisionError,
            add_events
              [EvPrint (Text (nl ++ "--- Ratios (relative to C native) ---")%string)]
              w)
      else (Val tt,
            add_events
              [EvPrint (Text (nl ++ "--- Ratios (relative to C native) ---")%string);
               EvPrint (RatioLine "  Python native / C native:  "
                          (float_div (py_native t) (c_native t)));
               EvPrint (RatioLine "  Rust native / C native:    "
                          (float_div (rust_native t) (c_native t)));
               EvPrint (RatioLine "  Python cross / C native:   "
                          (float_div (py_cross t) (c_native t)));
               EvPrint (RatioLine "  C cross / C native:        "
                          (float_div (c_cross t) (c_native t)));
               EvPrint (RatioLine "  Rust cross / C native:     "
                          (float_div (rust_cross t) (c_native t)))]
              w).
Proof.
  intros t w. unfold ratios, truediv.
  destruct (float_is_zero (c_native t)).
  - reflexivity.
  - unfold bind, print, emit, ret, add_events.
    cbn [objs env clock ticks trace]. do 2 f_equal.
    rewrite <- !app_assoc. reflexivity.
Qed.


(** X7: the ratios all divide by the "C loop, C nodes" timing.  When that
    timing is 0.0 the section stops with ZeroDivisionError right after its
    heading, before any ratio is printed; otherwise it prints the five
    ratios, each a timing divided by [c_native], in the order of the
    source. *)
Theorem ratios_outcome :
  forall t w,
    ratios t w
    = if float_is_zero (c_native t)
      then (Raise ZeroDivisionError,
            add_events
              [EvPrint (Text (nl ++ "--- Ratios (relative to C native) ---")%string)]
              w)
      else (Val tt,
            add_events
              [EvPrint (Text (nl ++ "--- Ratios (relative to C native) ---")%string);
               EvPrint (RatioLine "  Python native / C native:  "
                          (float_div (py_native t) (c_native t)));
               EvPrint (RatioLine "  Rust native / C native:    "
                          (float_div (rust_native t) (c_native t)));
               EvPrint (RatioLine "  Python cross / C native:   "
                          (float_div (py_cross t) (c_native t)));
               EvPrint (RatioLine "  C cross / C native:        "
                          (float_div (c_cross t) (c_native t)));
               EvPrint (RatioLine "  Rust cross / C native:     "
                          (float_div (rust_cross t) (c_native t)))]
              w).
Proof. exact ratios_run. Qed.

Lemma in_store_inv {A} (m : comp store A) w r w' :
  in_store m w = (r, w') ->
  exists s', m (objs w) = (r, s') /\ w' = set_objs s' w.
Proof.
  unfold in_store. destruct (m (objs w)) as [r0 s'].
  intros H. injection H as <- <-. exists s'. auto.
Qed.

Lemma assert_sum_val_inv name f lst expected w u w' :
  assert_sum name f lst expected w = (Val u, w') ->
  exists s1, f (Some lst) (objs w) = (Val expected, s1) /\ w' = set_objs s1 w.
Proof.
  intros H.
  destruct (assert_sum_cases name f lst expected w)
    as [[s1 [E R]] | [_ Hab]].
  - rewrite R in H. injection H as _ <-. exists s1. auto.
  - rewrite H in Hab. contradiction.
Qed.

(** The verification on six sums that agree. *)
Lemma verify_run fuel py_list c_list rust_list w s1 s2 s3 s4 s5 s6 :
  py_sum_list fuel (Some py_list) (objs w) = (Val (N * (N - 1) / 2), s1) ->
  in_ext (c_sum_list (Some c_list)) s1 = (Val (N * (N - 1) / 2), s2) ->
  in_ext (rust_sum_list (Some rust_list)) s2 = (Val (N * (N - 1) / 2), s3) ->
  python_sum_list fuel (Some py_list) s3 = (Val (N * (N - 1) / 2), s4) ->
  python_sum_list fuel (Some c_list) s4 = (Val (N * (N - 1) / 2), s5) ->
  python_sum_list fuel (Some rust_list) s5 = (Val (N * (N - 1) / 2), s6) ->
  verify fuel py_list c_list rust_list w
  = (Val tt,
     add_events
       [EvPrint (Text "Correctness: all implementations produce 499500 (sum 0..999)");
        EvPrint (Text "")]
       (set_objs s6 w)).
Proof.
  intros E1 E2 E3 E4 E5 E6. unfold verify. cbv zeta.
  assert (Hstep : forall name f lst e (k : unit -> comp world unit) w0 s0,
            f (Some lst) (objs w0) = (Val e, s0) ->
            bind (assert_sum name f lst e) k w0 = k tt (set_objs s0 w0)).
  { intros name f lst e k w0 s0 Hf. apply bind_val.
    unfold assert_sum, bind, in_store. rewrite Hf, Z.eqb_refl. reflexivity. }
  rewrite (Hstep _ _ _ _ _ _ _ E1).
  rewrite (Hstep _ _ _ _ _ _ s2) by exact E2.
  rewrite (Hstep _ _ _ _ _ _ s3) by exact E3.
  rewrite (Hstep _ _ _ _ _ _ s4) by exact E4.
  rewrite (Hstep _ _ _ _ _ _ s5) by exact E5.
  rewrite (Hstep _ _ _ _ _ _ s6) by exact E6.
  unfold bind, print, emit, add_events, set_objs.
  cbn [objs env clock ticks trace]. do 2 f_equal.
  rewrite <- app_assoc. reflexivity.
Qed.

(** X8: the verification is sound and complete.  It returns exactly when
    the six sums, computed one after the other, all return 499500; it has
    then printed the confirmation line and an empty line, and nothing
    else. *)
Theorem verify_returns_iff :
  forall fuel py_list c_list rust_list w,
    (forall w',
        verify fuel py_list c_list rust_list w = (Val tt, w') ->
        sums_agree fuel py_list c_list rust_list (objs w) /\
        ticks w' = ticks w /\
        trace w'
        = trace w ++
          [EvPrint (Text "Correctness: all implementations produce 499500 (sum 0..999)");
           EvPrint (Text "")]) /\
    (sums_agree fuel py_list c_list rust_list (objs w) ->
     exists w', verify fuel py_list c_list rust_list w = (Val tt, w')).
Proof.
  intros fuel py_list c_list rust_list w. split.
  - intros w' H.
    assert (Hs : exists s1 s2 s3 s4 s5 s6,
               py_sum_list fuel (Some py_list) (objs w)
               = (Val (N * (N - 1) / 2), s1) /\
               in_ext (c_sum_list (Some c_list)) s1
               = (Val (N * (N - 1) / 2), s2) /\
               in_ext (rust_sum_list (Some rust_list)) s2
               = (Val (N * (N - 1) / 2), s3) /\
               python_sum_list fuel (Some py_list) s3
               = (Val (N * (N - 1) / 2), s4) /\
               python_sum_list fuel (Some c_list) s4
               = (Val (N * (N - 1) / 2), s5) /\
               python_sum_list fuel (Some rust_list) s5
               = (Val (N * (N - 1) / 2), s6)).
    { generalize H. unfold verify. cbv zeta. intros H0.
      apply bind_val_inv in H0. destruct H0 as (u1 & w1 & A1 & H0).
      apply assert_sum_val_inv in A1. destruct A1 as (s1 & E1 & ->).
      apply bind_val_inv in H0. destruct H0 as (u2 & w2 & A2 & H0).
      apply assert_sum_val_inv in A2. destruct A2 as (s2 & E2 & ->).
      apply bind_val_inv in H0. destruct H0 as (u3 & w3 & A3 & H0).
      apply assert_sum_val_inv in A3. destruct A3 as (s3 & E3 & ->).
      apply bind_val_inv in H0. destruct H0 as (u4 & w4 & A4 & H0).
      apply assert_sum_val_inv in A4. destruct A4 as (s4 & E4 & ->).
      apply bind_val_inv in H0. destruct H0 as (u5 & w5 & A5 & H0).
      apply assert_sum_val_inv in A5. destruct A5 as (s5 & E5 & ->).
      apply bind_val_inv in H0. destruct H0 as (u6 & w6 & A6 & H0).
      apply assert_sum_val_inv in A6. destruct A6 as (s6 & E6 & ->).
      cbn [objs set_objs] in *.
      exists s1, s2, s3, s4, s5, s6. auto 10. }
    destruct Hs as (s1 & s2 & s3 & s4 & s5 & s6 & E1 & E2 & E3 & E4 & E5 & E6).
    rewrite (verify_run fuel py_list c_list rust_list w s1 s2 s3 s4 s5 s6
               E1 E2 E3 E4 E5 E6) in H.
    injection H as <-.
    split; [|split; reflexivity].
    unfold sums_agree. cbv zeta. exists s1, s2, s3, s4, s5, s6. auto 10.
  - apply verify_passes.
Qed.

Lemma build_lists_unfold :
  build_lists =
  (py_list <- in_store (build_list PyNode N) ;;
   c_list <- in_store (build_list (fun v nx => in_ext (CNode v nx)) N) ;;
   rust_list <- in_store (build_list (fun v nx => in_ext (RustNode v nx)) N) ;;
   ret (py_list, c_list, rust_list)).
Proof. reflexivity. Qed.

(** ** The complete report *)

(** The lines of the environment section. *)
Definition environment_lines (e : environment) : list line :=
  [Text (str_mul "=" 60);
   Text "Boundary Crossing Benchmark";
   Text (str_mul "=" 60);
   Text ("Python:   " ++ sys_version e)%string;
   Text ("Platform: " ++ platform_platform e)%string;
   Text ("CC:       " ++ match cc_version e with
                          | Some out => out
                          | None => "unknown"
                          end)%string;
   Text ("Rust:     " ++ match rustc_version e with
                          | Some out => out
                          | None => "unknown"
                          end)%string;
   Text ""].

(** The events of one call of [bench] that returns: warmup calls, first
    reading, timed calls, second reading, the printed line. *)
Definition bench_events (label : string) (head : option ref)
                        (iterations t0 t1 : Z) : list event :=
  repeat (EvCall head) 1000
  ++ [EvClock t0]
  ++ repeat (EvCall head) (Z.to_nat iterations)
  ++ [EvClock t1; EvPrint (BenchLine label (int_truediv (t1 - t0) iterations))].

(** The lines a trace prints, in order. *)
Definition printed (tr : list event) : list line :=
  flat_map (fun ev => match ev with EvPrint l => [l] | _ => [] end) tr.

(** [f(head)] returns [v] from every store satisfying [inv], and leaves a
    store satisfying [inv]. *)
Definition returns (inv : store -> Prop) (f : option ref -> comp store Z)
                   (head : option ref) (v : Z) : Prop :=
  forall s, inv s -> exists s', f head s = (Val v, s') /\ inv s'.

(** The [k]-th reading of the clock after the readings already taken. *)
Definition reading (w : world) (k : nat) : Z := clock w (k + ticks w).

Lemma returns_returns_normally inv f head v :
  returns inv f head v -> returns_normally inv f head.
Proof.
  intros H s Hs. destruct (H s Hs) as [s' [E I']]. exists v, s'. auto.
Qed.

Lemma printed_app a b : printed (a ++ b) = printed a ++ printed b.
Proof. unfold printed. apply flat_map_app. Qed.

Lemma printed_prints ls : printed (map EvPrint ls) = ls.
Proof.
  induction ls as [|l ls IH]; [reflexivity|].
  change (printed (map EvPrint (l :: ls)))
    with (l :: printed (map EvPrint ls)).
  now rewrite IH.
Qed.

Lemma printed_calls head n : printed (repeat (EvCall head) n) = [].
Proof. induction n as [|n IH]; [reflexivity|exact IH]. Qed.

Lemma printed_bench_events label head iterations t0 t1 :
  printed (bench_events label head iterations t0 t1)
  = [BenchLine label (int_truediv (t1 - t0) iterations)].
Proof.
  unfold bench_events. rewrite !printed_app, !printed_calls. reflexivity.
Qed.

Lemma calls_made_app a b : calls_made (a ++ b) = (calls_made a + calls_made b)%nat.
Proof. unfold calls_made. now rewrite filter_app, length_app. Qed.

Lemma calls_made_prints ls : calls_made (map EvPrint ls) = 0%nat.
Proof. induction ls as [|l ls IH]; [reflexivity|exact IH]. Qed.

Lemma calls_made_calls head n : calls_made (repeat (EvCall head) n) = n.
Proof.
  induction n as [|n IH]; [reflexivity|].
  unfold calls_made in *. simpl. now rewrite IH.
Qed.

Lemma calls_made_bench_events label head iterations t0 t1 :
  calls_made (bench_events label head iterations t0 t1)
  = (1000 + Z.to_nat iterations)%nat.
Proof.
  unfold bench_events. rewrite !calls_made_app, !calls_made_calls.
  change (calls_made [EvClock t0]) with 0%nat.
  change (calls_made [EvClock t1;
                      EvPrint (BenchLine label (int_truediv (t1 - t0) iterations))])
    with 0%nat.
  lia.
Qed.

Lemma bind_print l {B} (k : unit -> comp world B) w :
  bind (print l) k w = k tt (add_events [EvPrint l] w).
Proof. reflexivity. Qed.

Lemma environment_report_lines w :
  environment_report w
  = (Val tt, add_events (map EvPrint (environment_lines (env w))) w).
Proof.
  unfold environment_report, get_compiler_version, get_rust_version.
  unfold environment_lines.
  unfold bind, print, emit, add_events. cbn beta iota.
  cbn [trace env objs clock ticks].
  destruct (cc_version (env w)) as [cc|]; cbn [trace env objs clock ticks];
    destruct (rustc_version (env w)) as [rustc|];
    cbn [map trace env objs clock ticks]; rewrite <- !app_assoc; reflexivity.
Qed.

(** A computation that touches nothing but the object store. *)
Definition store_only {A} (m : comp world A) : Prop :=
  forall w, exists s', snd (m w) = set_objs s' w.

Lemma store_only_ret {A} (a : A) : store_only (ret a).
Proof. intros w. exists (objs w). now destruct w. Qed.

Lemma store_only_in_store {A} (m : comp store A) : store_only (in_store m).
Proof.
  intros w. unfold in_store. destruct (m (objs w)) as [r s'].
  exists s'. reflexivity.
Qed.

Lemma store_only_bind {A B} (m : comp world A) (k : A -> comp world B) :
  store_only m -> (forall a, store_only (k a)) -> store_only (bind m k).
Proof.
  intros Hm Hk w. unfold bind. destruct (Hm w) as [s1 H1].
  destruct (m w) as [[a| |] w1]; cbn [snd] in *;
    try solve [exists s1; exact H1].
  destruct (Hk a w1) as [s2 H2]. exists s2. rewrite H2, H1. reflexivity.
Qed.

Lemma store_only_build_lists : store_only build_lists.
Proof.
  rewrite build_lists_unfold.
  repeat (apply store_only_bind; [apply store_only_in_store|intros ?]).
  apply store_only_ret.
Qed.

(** One call of [bench] on a function that returns normally. *)
Lemma bench_run inv label f head iterations w :
  0 < iterations ->
  inv (objs w) ->
  returns_normally inv f head ->
  exists s',
    inv s' /\
    bench label (Function f) head iterations w
    = (Val (int_truediv (reading w 1 - reading w 0) iterations),
       mk_world s' (env w) (clock w) (2 + ticks w)
         (trace w ++ bench_events label head iterations
                       (reading w 0) (reading w 1))).
Proof.
  intros Hit Hw Hf.
  unfold bench. unfold bind at 1. unfold assert at 1.
  replace (0 <? iterations) with true by (symmetry; apply Z.ltb_lt; exact Hit).
  unfold ret at 1. unfold bind at 1. cbn [callable assert]. unfold ret at 1.
  unfold bind at 1.
  destruct (call_loop inv f head Hf (range 1000) w Hw) as [s1 [Hi1 H1]].
  rewrite H1. rewrite length_range. change (Z.to_nat 1000) with 1000%nat.
  set (w1 := add_events (repeat (EvCall head) 1000) (set_objs s1 w)).
  unfold bind at 1. unfold perf_counter_ns at 1.
  set (w2 := mk_world (objs w1) (env w1) (clock w1) (S (ticks w1))
                      (trace w1 ++ [EvClock (clock w1 (ticks w1))])).
  unfold bind at 1.
  destruct (call_loop inv f head Hf (range iterations) w2 Hi1) as [s2 [Hi2 H2]].
  rewrite H2. rewrite length_range.
  unfold bind at 1. unfold perf_counter_ns at 1.
  unfold bind at 1. unfold int_div.
  replace (iterations =? 0) with false by (symmetry; apply Z.eqb_neq; lia).
  unfold ret at 1. unfold bind at 1. unfold print, emit. unfold ret.
  exists s2. split; [exact Hi2|].
  unfold w2, w1, add_events, set_objs, bench_events, reading.
  cbn [objs env clock ticks trace Nat.add]. do 2 f_equal.
  rewrite <- !app_assoc. reflexivity.
Qed.

Lemma falsification_run rust_native c_native w :
  float_is_zero (float_of_int N) = false ->
  falsification rust_native c_native w
  = (Val tt,
     add_events
       (map EvPrint
          (Text (nl ++ "--- Falsification ---")%string ::
           if float_lt rust_native c_native then
             [Text "UNEXPECTED: Rust native FASTER than C native.";
              Text "The PyO3 boundary-crossing hypothesis is WRONG for this workload."]
           else
             [SlowerLine (float_sub rust_native c_native)
                         (float_div (float_sub rust_native c_native)
                                    (float_of_int N));
              Text "Consistent with PyO3 extract/borrow overhead per node."]))
       w).
Proof.
  intros HN.
  unfold falsification. unfold bind at 1. unfold print at 1, emit at 1.
  destruct (float_lt rust_native c_native).
  - unfold bind, print, emit, add_events. cbn. do 2 f_equal.
    now rewrite <- !app_assoc.
  - unfold bind at 1. unfold truediv. rewrite HN. unfold ret at 1.
    unfold bind, print, emit, add_events. cbn. do 2 f_equal.
    now rewrite <- !app_assoc.
Qed.

(** The timing of the [k]-th benchmark of a run started in [w]: the
    difference of its two clock readings, divided by [M]. *)
Definition ns (w : world) (k : nat) : float :=
  int_truediv (reading w (2 * k + 1) - reading w (2 * k)) M.

(** The events of the benchmark section. *)
Definition benchmark_events (py_list c_list rust_list : ref) (w : world)
  : list event :=
  map EvPrint
    [Text ("Linked list traversal: " ++ str N ++ " nodes, "
           ++ str_commas M ++ " iterations")%string;
     Text (ljust 40 "Benchmark" ++ "  " ++ rjust 14 "ns/traversal")%string;
     Text (str_mul "-" 56);
     Text (nl ++ "--- Native (loop + data in same language) ---")%string]
  ++ bench_events "Python loop, Python nodes" (Some py_list) M
                  (reading w 0) (reading w 1)
  ++ bench_events "C loop, C nodes" (Some c_list) M
                  (reading w 2) (reading w 3)
  ++ bench_events "Rust loop, Rust nodes" (Some rust_list) M
                  (reading w 4) (reading w 5)
  ++ [EvPrint (Text (nl ++ "--- Python loop, different node types ---")%string)]
  ++ bench_events "Python loop, Python nodes" (Some py_list) M
                  (reading w 6) (reading w 7)
  ++ bench_events "Python loop, C nodes" (Some c_list) M
                  (reading w 8) (reading w 9)
  ++ bench_events "Python loop, Rust nodes" (Some rust_list) M
                  (reading w 10) (reading w 11).

Ltac print_step :=
  match goal with
  | |- context [bind (print ?l) ?k ?w] => rewrite (bind_print l k w)
  end.

Ltac bench_step inv Hf I B :=
  match goal with
  | |- exists _, _ /\ bind (bench ?label (Function ?f) ?head ?it) ?k ?w = _ =>
      let s := fresh "s" in
      destruct (bench_run inv label f head it w) as [s [I B]];
      [ reflexivity | cbn [objs]; assumption | exact Hf | ];
      rewrite (bind_val _ k w _ _ B); clear B;
      cbn [objs env clock ticks trace add_events reading Nat.add]
  end.

(** The benchmark section on six functions that return normally. *)
Lemma benchmark_run inv fuel py_list c_list rust_list w :
  inv (objs w) ->
  returns_normally inv (py_sum_list fuel) (Some py_list) ->
  returns_normally inv (fun h => in_ext (c_sum_list h)) (Some c_list) ->
  returns_normally inv (fun h => in_ext (rust_sum_list h)) (Some rust_list) ->
  returns_normally inv (python_sum_list fuel) (Some py_list) ->
  returns_normally inv (python_sum_list fuel) (Some c_list) ->
  returns_normally inv (python_sum_list fuel) (Some rust_list) ->
  exists s',
    inv s' /\
    benchmark fuel py_list c_list rust_list w
    = (Val (mk_timings (ns w 0) (ns w 1) (ns w 2) (ns w 3) (ns w 4) (ns w 5)),
       mk_world s' (env w) (clock w) (12 + ticks w)
                (trace w ++ benchmark_events py_list c_list rust_list w)).
Proof.
  intros Hw F1 F2 F3 F4 F5 F6.
  unfold benchmark. do 4 print_step.
  cbn [objs env clock ticks trace add_events reading Nat.add].
  bench_step inv F1 I1 B1.
  bench_step inv F2 I2 B2.
  bench_step inv F3 I3 B3.
  print_step.
  cbn [objs env clock ticks trace add_events reading Nat.add].
  bench_step inv F4 I4 B4.
  bench_step inv F5 I5 B5.
  bench_step inv F6 I6 B6.
  eexists. split; [eassumption|].
  unfold ret, ns, benchmark_events, reading.
  cbn [Nat.add Nat.mul map]. do 2 f_equal.
  rewrite <- !app_assoc. cbn [app]. reflexivity.
Qed.

Lemma ns_ext w' w k :
  clock w' = clock w -> ticks w' = ticks w -> ns w' k = ns w k.
Proof. unfold ns, reading. intros -> ->. reflexivity. Qed.

Lemma benchmark_events_ext py_list c_list rust_list w' w :
  clock w' = clock w -> ticks w' = ticks w ->
  benchmark_events py_list c_list rust_list w'
  = benchmark_events py_list c_list rust_list w.
Proof. unfold benchmark_events, reading. intros -> ->. reflexivity. Qed.

Lemma printed_benchmark_events py_list c_list rust_list w :
  printed (benchmark_events py_list c_list rust_list w)
  = [Text ("Linked list traversal: " ++ str N ++ " nodes, "
           ++ str_commas M ++ " iterations")%string;
     Text (ljust 40 "Benchmark" ++ "  " ++ rjust 14 "ns/traversal")%string;
     Text (str_mul "-" 56);
     Text (nl ++ "--- Native (loop + data in same language) ---")%string;
     BenchLine "Python loop, Python nodes" (ns w 0);
     BenchLine "C loop, C nodes" (ns w 1);
     BenchLine "Rust loop, Rust nodes" (ns w 2);
     Text (nl ++ "--- Python loop, different node types ---")%string;
     BenchLine "Python loop, Python nodes" (ns w 3);
     BenchLine "Python loop, C nodes" (ns w 4);
     BenchLine "Python loop, Rust nodes" (ns w 5)].
Proof.
  unfold benchmark_events.
  rewrite !printed_app, !printed_bench_events, printed_prints.
  reflexivity.
Qed.

Lemma calls_made_benchmark_events py_list c_list rust_list w :
  Z.of_nat (calls_made (benchmark_events py_list c_list rust_list w))
  = 6 * (1000 + M).
Proof.
  unfold benchmark_events.
  rewrite !calls_made_app, !calls_made_bench_events, calls_made_prints.
  change (calls_made
            [EvPrint (Text (nl ++ "--- Python loop, different node types ---")%string)])
    with 0%nat.
  assert (HM : Z.of_nat (Z.to_nat M) = M) by (apply Z2Nat.id; discriminate).
  lia.
Qed.

(** The main run up to the end of the benchmark section, on lists whose
    six sums return 499500. *)
Lemma main_benchmarked (inv : store -> Prop) fuel w py_list c_list rust_list w1 :
  (environment_report ;; build_lists) w
  = (Val (py_list, c_list, rust_list), w1) ->
  inv (objs w1) ->
  returns inv (py_sum_list fuel) (Some py_list) (N * (N - 1) / 2) ->
  returns inv (fun h => in_ext (c_sum_list h)) (Some c_list)
          (N * (N - 1) / 2) ->
  returns inv (fun h => in_ext (rust_sum_list h)) (Some rust_list)
          (N * (N - 1) / 2) ->
  returns inv (python_sum_list fuel) (Some py_list) (N * (N - 1) / 2) ->
  returns inv (python_sum_list fuel) (Some c_list) (N * (N - 1) / 2) ->
  returns inv (python_sum_list fuel) (Some rust_list) (N * (N - 1) / 2) ->
  exists s7,
    main fuel w
    = bind (ratios (mk_timings (ns w 0) (ns w 1) (ns w 2)
                               (ns w 3) (ns w 4) (ns w 5)))
           (fun _ => falsification (ns w 2) (ns w 1))
           (mk_world s7 (env w) (clock w) (12 + ticks w)
              ((trace w ++ map EvPrint (environment_lines (env w))
                ++ [EvPrint (Text "Correctness: all implementations produce 499500 (sum 0..999)");
                    EvPrint (Text "")])
               ++ benchmark_events py_list c_list rust_list w)).
Proof.
  intros Hbuild Hinv R1 R2 R3 R4 R5 R6.
  (* the world after the environment section and the three builds *)
  assert (Hw1 : exists sb,
             w1 = set_objs sb
                    (add_events (map EvPrint (environment_lines (env w))) w)).
  { assert (Hb := Hbuild). apply bind_val_inv in Hb.
    destruct Hb as (u & wa & Henv & Hb).
    rewrite environment_report_lines in Henv.
    assert (Ewa : add_events (map EvPrint (environment_lines (env w))) w = wa)
      by exact (f_equal snd Henv).
    subst wa.
    destruct (store_only_build_lists
                (add_events (map EvPrint (environment_lines (env w))) w))
      as [sb Hsb].
    rewrite Hb in Hsb. cbn [snd] in Hsb. exists sb. exact Hsb. }
  destruct Hw1 as [sb Hw1].
  (* main, from the verification on *)
  assert (Hmain : main fuel w
          = bind (verify fuel py_list c_list rust_list)
                 (fun _ =>
                    t <- benchmark fuel py_list c_list rust_list ;;
                    ratios t ;;
                    falsification (rust_native t) (c_native t)) w1).
  { unfold main.
    rewrite <- (bind_assoc environment_report (fun _ => build_lists)).
    rewrite (bind_val _ _ w _ w1 Hbuild). reflexivity. }
  (* the six sums *)
  destruct (R1 _ Hinv) as [s1 [E1 I1]].
  destruct (R2 _ I1) as [s2 [E2 I2]].
  destruct (R3 _ I2) as [s3 [E3 I3]].
  destruct (R4 _ I3) as [s4 [E4 I4]].
  destruct (R5 _ I4) as [s5 [E5 I5]].
  destruct (R6 _ I5) as [s6 [E6 I6]].
  assert (V := verify_run fuel py_list c_list rust_list w1
                 s1 s2 s3 s4 s5 s6 E1 E2 E3 E4 E5 E6).
  rewrite (bind_val _ _ w1 tt _ V) in Hmain. clear V.
  (* the world the benchmark section starts in *)
  subst w1.
  match type of Hmain with
  | _ = bind _ _ ?wv0 => set (wv := wv0) in *
  end.
  assert (Hc : clock wv = clock w) by reflexivity.
  assert (Ht : ticks wv = ticks w) by reflexivity.
  assert (He : env wv = env w) by reflexivity.
  assert (Htr : trace wv
                = trace w ++ map EvPrint (environment_lines (env w))
                  ++ [EvPrint (Text "Correctness: all implementations produce 499500 (sum 0..999)");
                      EvPrint (Text "")]).
  { unfold wv, add_events, set_objs. cbn [objs env clock ticks trace].
    rewrite <- app_assoc. reflexivity. }
  assert (Hi : inv (objs wv)) by exact I6.
  clearbody wv.
  (* the benchmark section *)
  destruct (benchmark_run inv fuel py_list c_list rust_list wv Hi
              (returns_returns_normally _ _ _ _ R1)
              (returns_returns_normally _ _ _ _ R2)
              (returns_returns_normally _ _ _ _ R3)
              (returns_returns_normally _ _ _ _ R4)
              (returns_returns_normally _ _ _ _ R5)
              (returns_returns_normally _ _ _ _ R6))
    as [s7 [I7 B]].
  rewrite !(ns_ext wv w _ Hc Ht) in B.
  rewrite (benchmark_events_ext _ _ _ wv w Hc Ht) in B.
  rewrite He, Hc, Ht, Htr in B.
  rewrite (bind_val _ _ wv _ _ B) in Hmain. clear B.
  exists s7. exact Hmain.
Qed.

(** X10: the complete run.  When the lists are built, the six sums return
    499500 on them (from the stores the run goes through, which satisfy
    [inv]), and the "C loop, C nodes" timing is not 0.0, [main] returns
    normally; it has made [6 * (1000 + M)] calls through [bench], read the
    clock twelve times, and printed exactly these lines, in this order:
    the environment section, the confirmation, the benchmark headings with
    the six timings, the five ratios over the C timing, and the
    falsification section decided by [rust_native < c_native]. *)
Theorem main_report :
  forall (inv : store -> Prop) fuel w py_list c_list rust_list w1,
    (environment_report ;; build_lists) w
    = (Val (py_list, c_list, rust_list), w1) ->
    inv (objs w1) ->
    returns inv (py_sum_list fuel) (Some py_list) (N * (N - 1) / 2) ->
    returns inv (fun h => in_ext (c_sum_list h)) (Some c_list)
            (N * (N - 1) / 2) ->
    returns inv (fun h => in_ext (rust_sum_list h)) (Some rust_list)
            (N * (N - 1) / 2) ->
    returns inv (python_sum_list fuel) (Some py_list) (N * (N - 1) / 2) ->
    returns inv (python_sum_list fuel) (Some c_list) (N * (N - 1) / 2) ->
    returns inv (python_sum_list fuel) (Some rust_list) (N * (N - 1) / 2) ->
    float_is_zero (ns w 1) = false ->
    float_is_zero (float_of_int N) = false ->
    exists w' new,
      main fuel w = (Val tt, w') /\
      trace w' = trace w ++ new /\
      ticks w' = (12 + ticks w)%nat /\
      Z.of_nat (calls_made new) = 6 * (1000 + M) /\
      printed new
      = environment_lines (env w)
        ++ [Text "Correctness: all implementations produce 499500 (sum 0..999)";
            Text ""]
        ++ [Text ("Linked list traversal: " ++ str N ++ " nodes, "
                  ++ str_commas M ++ " iterations")%string;
            Text (ljust 40 "Benchmark" ++ "  " ++ rjust 14 "ns/traversal")%string;
            Text (str_mul "-" 56);
            Text (nl ++ "--- Native (loop + data in same language) ---")%string;
            BenchLine "Python loop, Python nodes" (ns w 0);
            BenchLine "C loop, C nodes" (ns w 1);
            BenchLine "Rust loop, Rust nodes" (ns w 2);
            Text (nl ++ "--- Python loop, different node types ---")%string;
            BenchLine "Python loop, Python nodes" (ns w 3);
            BenchLine "Python loop, C nodes" (ns w 4);
            BenchLine "Python loop, Rust nodes" (ns w 5)]
        ++ [Text (nl ++ "--- Ratios (relative to C native) ---")%string;
            RatioLine "  Python native / C native:  "
                      (float_div (ns w 0) (ns w 1));
            RatioLine "  Rust native / C native:    "
                      (float_div (ns w 2) (ns w 1));
            RatioLine "  Python cross / C native:   "
                      (float_div (ns w 3) (ns w 1));
            RatioLine "  C cross / C native:        "
                      (float_div (ns w 4) (ns w 1));
            RatioLine "  Rust cross / C native:     "
                      (float_div (ns w 5) (ns w 1))]
        ++ Text (nl ++ "--- Falsification ---")%string
           :: (if float_lt (ns w 2) (ns w 1) then
                 [Text "UNEXPECTED: Rust native FASTER than C native.";
                  Text "The PyO3 boundary-crossing hypothesis is WRONG for this workload."]
               else
                 [SlowerLine (float_sub (ns w 2) (ns w 1))
                             (float_div (float_sub (ns w 2) (ns w 1))
                                        (float_of_int N));
                  Text "Consistent with PyO3 extract/borrow overhead per node."]).
Proof.
  intros inv fuel w py_list c_list rust_list w1 Hbuild Hinv
         R1 R2 R3 R4 R5 R6 Hz HN.
  destruct (main_benchmarked inv fuel w py_list c_list rust_list w1
              Hbuild Hinv R1 R2 R3 R4 R5 R6) as [s7 Hmain].
  (* the ratios *)
  match type of Hmain with
  | _ = bind (ratios ?t) _ ?wb =>
      assert (Hr := ratios_run t wb)
  end.
  cbn [c_native py_native rust_native py_cross c_cross rust_cross] in Hr.
  rewrite Hz in Hr.
  rewrite (bind_val _ _ _ tt _ Hr) in Hmain. clear Hr.
  (* the falsification check *)
  cbn [c_native rust_native] in Hmain.
  rewrite (falsification_run _ _ _ HN) in Hmain.
  (* the result *)
  eexists. eexists. split; [exact Hmain|].
  unfold add_events. cbn [objs env clock ticks trace].
  split.
  { rewrite <- !app_assoc. reflexivity. }
  split; [reflexivity|].
  split.
  - rewrite !calls_made_app.
    change [EvPrint (Text "Correctness: all implementations produce 499500 (sum 0..999)");
            EvPrint (Text "")]
      with (map EvPrint
              [Text "Correctness: all implementations produce 499500 (sum 0..999)";
               Text ""]).
    match goal with
    | |- context [calls_made (EvPrint ?a :: EvPrint ?b :: EvPrint ?c
                              :: EvPrint ?d :: EvPrint ?e :: [EvPrint ?f])] =>
        change (EvPrint a :: EvPrint b :: EvPrint c
                :: EvPrint d :: EvPrint e :: [EvPrint f])
          with (map EvPrint [a; b; c; d; e; f])
    end.
    rewrite !calls_made_prints.
    rewrite !Nat.add_0_l, !Nat.add_0_r.
    apply calls_made_benchmark_events.
  - rewrite !printed_app.
    change [EvPrint (Text "Correctness: all implementations produce 499500 (sum 0..999)");
            EvPrint (Text "")]
      with (map EvPrint
              [Text "Correctness: all implementations produce 499500 (sum 0..999)";
               Text ""]).
    match goal with
    | |- context [printed (EvPrint ?a :: EvPrint ?b :: EvPrint ?c
                           :: EvPrint ?d :: EvPrint ?e :: [EvPrint ?f])] =>
        change (EvPrint a :: EvPrint b :: EvPrint c
                :: EvPrint d :: EvPrint e :: [EvPrint f])
          with (map EvPrint [a; b; c; d; e; f])
    end.
    rewrite !printed_prints, printed_benchmark_events.
    reflexivity.
Qed.

(** X11: a frozen baseline stops the report.  Under the conditions of the
    complete run, but with a "C loop, C nodes" timing of 0.0, [main] ends
    with ZeroDivisionError in the ratios section: the six timings and the
    ratios heading are printed, no ratio and no falsification verdict. *)
Theorem main_zero_baseline :
  forall (inv : store -> Prop) fuel w py_list c_list rust_list w1,
    (environment_report ;; build_lists) w
    = (Val (py_list, c_list, rust_list), w1) ->
    inv (objs w1) ->
    returns inv (py_sum_list fuel) (Some py_list) (N * (N - 1) / 2) ->
    returns inv (fun h => in_ext (c_sum_list h)) (Some c_list)
            (N * (N - 1) / 2) ->
    returns inv (fun h => in_ext (rust_sum_list h)) (Some rust_list)
            (N * (N - 1) / 2) ->
    returns inv (python_sum_list fuel) (Some py_list) (N * (N - 1) / 2) ->
    returns inv (python_sum_list fuel) (Some c_list) (N * (N - 1) / 2) ->
    returns inv (python_sum_list fuel) (Some rust_list) (N * (N - 1) / 2) ->
    float_is_zero (ns w 1) = true ->
    exists w' new,
      main fuel w = (Raise ZeroDivisionError, w') /\
      trace w' = trace w ++ new /\
      printed new
      = environment_lines (env w)
        ++ [Text "Correctness: all implementations produce 499500 (sum 0..999)";
            Text ""]
        ++ [Text ("Linked list traversal: " ++ str N ++ " nodes, "
                  ++ str_commas M ++ " iterations")%string;
            Text (ljust 40 "Benchmark" ++ "  " ++ rjust 14 "ns/traversal")%string;
            Text (str_mul "-" 56);
            Text (nl ++ "--- Native (loop + data in same language) ---")%string;
            BenchLine "Python loop, Python nodes" (ns w 0);
            BenchLine "C loop, C nodes" (ns w 1);
            BenchLine "Rust loop, Rust nodes" (ns w 2);
            Text (nl ++ "--- Python loop, different node types ---")%string;
            BenchLine "Python loop, Python nodes" (ns w 3);
            BenchLine "Python loop, C nodes" (ns w 4);
            BenchLine "Python loop, Rust nodes" (ns w 5)]
        ++ [Text (nl ++ "--- Ratios (relative to C native) ---")%string].
Proof.
  intros inv fuel w py_list c_list rust_list w1 Hbuild Hinv
         R1 R2 R3 R4 R5 R6 Hz.
  destruct (main_benchmarked inv fuel w py_list c_list rust_list w1
              Hbuild Hinv R1 R2 R3 R4 R5 R6) as [s7 Hmain].
  match type of Hmain with
  | _ = bind (ratios ?t) _ ?wb =>
      assert (Hr := ratios_run t wb)
  end.
  cbn [c_native py_native rust_native py_cross c_cross rust_cross] in Hr.
  rewrite Hz in Hr.
  unfold bind at 1 in Hmain. rewrite Hr in Hmain. clear Hr.
  eexists. eexists. split; [exact Hmain|].
  unfold add_events. cbn [objs env clock ticks trace].
  split.
  { rewrite <- !app_assoc. reflexivity. }
  rewrite !printed_app.
  change [EvPrint (Text "Correctness: all implementations produce 499500 (sum 0..999)");
          EvPrint (Text "")]
    with (map EvPrint
            [Text "Correctness: all implementations produce 499500 (sum 0..999)";
             Text ""]).
  change [EvPrint (Text (nl ++ "--- Ratios (relative to C native) ---")%string)]
    with (map EvPrint
            [Text (nl ++ "--- Ratios (relative to C native) ---")%string]).
  rewrite !printed_prints, printed_benchmark_events.
  reflexivity.
Qed.

(** X12: what a failed C check reports.  When the PyNode sum is right and
    [c_sum_list(c_list)] returns a wrong value, the sum is computed a
    second time for the message: the run stops with the assertion failure
    "c_sum_list wrong: <second result> != 499500", after two calls of
    [c_sum_list] and without printing anything. *)
Theorem verify_c_mismatch :
  forall fuel py_list c_list rust_list w s1 got s2 again s3,
    py_sum_list fuel (Some py_list) (objs w) = (Val (N * (N - 1) / 2), s1) ->
    in_ext (c_sum_list (Some c_list)) s1 = (Val got, s2) ->
    got <> N * (N - 1) / 2 ->
    in_ext (c_sum_list (Some c_list)) s2 = (Val again, s3) ->
    verify fuel py_list c_list rust_list w
    = (Raise (AssertionError
                ("c_sum_list wrong: " ++ str again ++ " != 499500")%string),
       set_objs s3 w).
Proof.
  intros fuel py_list c_list rust_list w s1 got s2 again s3 E1 E2 Hne E3.
  unfold verify. cbv zeta.
  assert (Hpy : assert_sum "py_sum_list" (py_sum_list fuel) py_list
                  (N * (N - 1) / 2) w = (Val tt, set_objs s1 w)).
  { unfold assert_sum, bind, in_store. rewrite E1, Z.eqb_refl. reflexivity. }
  rewrite (bind_val _ _ w tt _ Hpy).
  unfold bind at 1. unfold assert_sum. unfold bind at 1.
  unfold in_store at 1. cbn [objs set_objs]. rewrite E2.
  unfold assert. replace (got =? N * (N - 1) / 2) with false
    by (symmetry; apply Z.eqb_neq; exact Hne).
  unfold bind at 1. unfold bind at 1. unfold in_store at 1.
  cbn [objs set_objs]. rewrite E3. reflexivity.
Qed.

End Program.


(** * A concrete process

    IEEE binary64 for Python's floats, and stub extension modules whose
    node class returns one fixed object and whose sums return 0. *)

Module Binary64.

Definition float : Type := spec_float.

Definition of_int (z : Z) : float := binary_normalize 53 1024 z 0 false.

Definition div : float -> float -> float := SFdiv 53 1024.

Definition sub : float -> float -> float := SFsub 53 1024.

Definition lt : float -> float -> bool := SFltb.

Definition is_zero (x : float) : bool :=
  match x with
  | S754_zero _ => true
  | _ => false
  end.

Definition int_truediv (a b : Z) : float := div (of_int a) (of_int b).

End Binary64.

Module Stub.

Definition handle : Type := nat.
Definition ext : Type := unit.

Definition ext_value (x : handle) : comp ext Z := ret 0.

Definition ext_next (x : handle) : comp ext (option (ref handle)) := ret None.

Definition CNode (v : Z) (nx : option (ref handle)) : comp ext (ref handle) :=
  ret (ExtObj handle 0%nat).

Definition c_sum_list (head : option (ref handle)) : comp ext Z := ret 0.

Definition RustNode (v : Z) (nx : option (ref handle))
  : comp ext (ref handle) :=
  ret (ExtObj handle 1%nat).

Definition rust_sum_list (head : option (ref handle)) : comp ext Z := ret 0.

Definition empty_store : store handle ext := mk_store handle ext [] tt.

Definition env0 : environment :=
  mk_environment "3.12.0" "Linux-x86_64" (Some "cc (GCC) 13.2.0"%string) None.

(** A process that has done nothing yet; its clock advances by one
    millisecond between readings. *)
Definition world_of (s : store handle ext)
  : world handle ext Binary64.float :=
  mk_world handle ext Binary64.float s env0
           (fun k => 1000000 * Z.of_nat k) 0 [].

Definition w0 : world handle ext Binary64.float := world_of empty_store.

(** The store after [build_list(PyNode, 5)], and the head it returned. *)
Definition store5 : store handle ext :=
  Eval vm_compute in snd (build_list handle ext (PyNode handle ext) 5 empty_store).

Definition head5 : option (ref handle) := Some (PyObj handle 4).

(** [lambda head: 1 // 0] *)
Definition fn_raises : pyval handle ext :=
  Function handle ext (fun _ => raise ZeroDivisionError).

Definition run_bench (label : string) (fn : pyval handle ext)
                     (head : option (ref handle)) (iterations : Z)
  : comp (world handle ext Binary64.float) Binary64.float :=
  bench handle ext Binary64.float Binary64.int_truediv
        label fn head iterations.

(** The process after the environment report and the three
    [build_list] calls of [main]. *)
Definition built
  : res (ref handle * ref handle * ref handle)
    * world handle ext Binary64.float :=
  Eval vm_compute in
    (environment_report handle ext Binary64.float ;;
     build_lists handle ext Binary64.float CNode RustNode) w0.

Definition w1 : world handle ext Binary64.float := snd built.

Definition run_main (fuel : nat)
  : comp (world handle ext Binary64.float) unit :=
  main handle ext ext_value ext_next Binary64.float
       Binary64.int_truediv Binary64.div Binary64.sub Binary64.lt
       Binary64.is_zero Binary64.of_int
       CNode c_sum_list RustNode rust_sum_list fuel.

End Stub.

(** ** The theorems at concrete inputs *)

Lemma build_list_sums_witness :
  0 < 5 /\ (Z.to_nat 5 <= 5)%nat /\
  exists head s',
    build_list Stub.handle Stub.ext (PyNode Stub.handle Stub.ext) 5
               Stub.empty_store = (Val head, s') /\
    py_sum_list Stub.handle Stub.ext Stub.ext_value Stub.ext_next
                5 (Some head) s' = (Val (5 * (5 - 1) / 2), s') /\
    python_sum_list Stub.handle Stub.ext Stub.ext_value Stub.ext_next
                    5 (Some head) s' = (Val (5 * (5 - 1) / 2), s').
Proof.
  split; [reflexivity|]. split; [vm_compute; lia|].
  apply (build_list_sums Stub.handle Stub.ext Stub.ext_value Stub.ext_next
                         5 Stub.empty_store 5).
  - reflexivity.
  - vm_compute. lia.
Defined.

Lemma build_list_chain_witness :
  0 < 3 /\
  exists head s' cells,
    build_list Stub.handle Stub.ext (PyNode Stub.handle Stub.ext) 3
               Stub.empty_store = (Val head, s') /\
    chain Stub.handle (heap Stub.handle Stub.ext s') (Some head) cells /\
    length cells = Z.to_nat 3 /\
    NoDup (map fst cells) /\
    map snd cells = map Z.of_nat (seq 0 (Z.to_nat 3)) /\
    (exists tail,
        last cells (0%nat, 0) = (tail, 3 - 1) /\
        nth_error (heap Stub.handle Stub.ext s') tail
        = Some (mk_py_node Stub.handle (3 - 1) None)) /\
    (exists fresh,
        heap Stub.handle Stub.ext s'
        = heap Stub.handle Stub.ext Stub.empty_store ++ fresh /\
        length fresh = Z.to_nat 3).
Proof.
  split; [reflexivity|].
  apply (build_list_chain Stub.handle Stub.ext 3 Stub.empty_store).
  reflexivity.
Defined.

Lemma build_list_nonpositive_witness :
  -5 <= 0 /\
  build_list Stub.handle Stub.ext (PyNode Stub.handle Stub.ext) (-5)
             Stub.empty_store
  = (Raise (AssertionError "List length must be positive, got -5"),
     Stub.empty_store).
Proof.
  split; [discriminate|].
  apply (build_list_nonpositive Stub.handle Stub.ext
           (PyNode Stub.handle Stub.ext) (-5) Stub.empty_store).
  discriminate.
Defined.

Lemma bench_invalid_argument_witness :
  (0 <= 0 \/ callable Stub.handle Stub.ext Stub.fn_raises = false) /\
  Stub.run_bench "x" Stub.fn_raises None 0 Stub.w0
  = (Raise (AssertionError "Iterations must be positive, got 0"), Stub.w0).
Proof.
  split; [left; discriminate|].
  apply (bench_invalid_argument Stub.handle Stub.ext Binary64.float
           Binary64.int_truediv "x" Stub.fn_raises None 0 Stub.w0).
  left. discriminate.
Defined.

(** [bench("x", py_sum_list, head, 3)] on the five-node list. *)
Lemma bench_calls_witness :
  0 < 3 /\
  Stub.store5 = Stub.store5 /\
  returns_normally Stub.handle Stub.ext (fun s => s = Stub.store5)
    (py_sum_list Stub.handle Stub.ext Stub.ext_value Stub.ext_next 5)
    Stub.head5 /\
  exists s',
    s' = Stub.store5 /\
    Stub.run_bench "x"
      (Function Stub.handle Stub.ext
         (py_sum_list Stub.handle Stub.ext Stub.ext_value Stub.ext_next 5))
      Stub.head5 3 (Stub.world_of Stub.store5)
    = (Val (Binary64.int_truediv (1000000 - 0) 3),
       mk_world Stub.handle Stub.ext Binary64.float s' Stub.env0
         (fun k => 1000000 * Z.of_nat k) 2
         (repeat (EvCall Stub.handle Binary64.float Stub.head5) 1000
          ++ [EvClock Stub.handle Binary64.float 0]
          ++ repeat (EvCall Stub.handle Binary64.float Stub.head5) 3
          ++ [EvClock Stub.handle Binary64.float 1000000;
              EvPrint Stub.handle Binary64.float
                (BenchLine Binary64.float "x"
                   (Binary64.int_truediv (1000000 - 0) 3))])).
Proof.
  assert (Hf : returns_normally Stub.handle Stub.ext (fun s => s = Stub.store5)
                 (py_sum_list Stub.handle Stub.ext Stub.ext_value
                              Stub.ext_next 5)
                 Stub.head5).
  { intros s Hs. rewrite Hs. exists 10, Stub.store5.
    split; reflexivity. }
  split; [reflexivity|]. split; [reflexivity|]. split; [exact Hf|].
  apply (bench_calls Stub.handle Stub.ext Binary64.float Binary64.int_truediv
           (fun s => s = Stub.store5) "x"
           (py_sum_list Stub.handle Stub.ext Stub.ext_value Stub.ext_next 5)
           Stub.head5 3 (Stub.world_of Stub.store5)).
  - reflexivity.
  - reflexivity.
  - exact Hf.
Defined.

(** [bench("x", lambda head: 1 // 0, None, 1)]: the first warmup call
    raises, and that is the only call made. *)
Lemma bench_calls_counterexample :
  callable Stub.handle Stub.ext Stub.fn_raises = true /\
  0 < 1 /\
  Stub.run_bench "x" Stub.fn_raises None 1 Stub.w0
  = (Raise ZeroDivisionError,
     add_events Stub.handle Stub.ext Binary64.float
       [EvCall Stub.handle Binary64.float None] Stub.w0) /\
  calls_made Stub.handle Binary64.float
    (trace Stub.handle Stub.ext Binary64.float
       (snd (Stub.run_bench "x" Stub.fn_raises None 1 Stub.w0))) = 1%nat /\
  1%nat <> Z.to_nat (1000 + 1).
Proof.
  split; [reflexivity|]. split; [reflexivity|].
  split; [vm_compute; reflexivity|].
  split; [vm_compute; reflexivity|].
  vm_compute. lia.
Qed.

(** The check on 7.0 against 5.0 ns: Rust is slower, by 0.002 ns per
    node. *)
Lemma falsification_branch_witness :
  Binary64.is_zero (Binary64.of_int N) = false /\
  falsification Stub.handle Stub.ext Binary64.float Binary64.div Binary64.sub
                Binary64.lt Binary64.is_zero Binary64.of_int
                (Binary64.of_int 7) (Binary64.of_int 5) Stub.w0
  = (Val tt,
     add_events Stub.handle Stub.ext Binary64.float
       [EvPrint Stub.handle Binary64.float
          (Text Binary64.float (nl ++ "--- Falsification ---")%string);
        EvPrint Stub.handle Binary64.float
          (SlowerLine Binary64.float
             (Binary64.sub (Binary64.of_int 7) (Binary64.of_int 5))
             (Binary64.div
                (Binary64.sub (Binary64.of_int 7) (Binary64.of_int 5))
                (Binary64.of_int N)));
        EvPrint Stub.handle Binary64.float
          (Text Binary64.float
             "Consistent with PyO3 extract/borrow overhead per node.")]
       Stub.w0).
Proof.
  split; [reflexivity|].
  apply (falsification_branch Stub.handle Stub.ext Binary64.float
           Binary64.div Binary64.sub Binary64.lt Binary64.is_zero
           Binary64.of_int (Binary64.of_int 7) (Binary64.of_int 5) Stub.w0).
  reflexivity.
Defined.

(** The check on 5.0 against 7.0 ns: the hypothesis is reported wrong. *)
Example falsification_taken :
  falsification Stub.handle Stub.ext Binary64.float Binary64.div Binary64.sub
                Binary64.lt Binary64.is_zero Binary64.of_int
                (Binary64.of_int 5) (Binary64.of_int 7) Stub.w0
  = (Val tt,
     add_events Stub.handle Stub.ext Binary64.float
       [EvPrint Stub.handle Binary64.float
          (Text Binary64.float (nl ++ "--- Falsification ---")%string);
        EvPrint Stub.handle Binary64.float
          (Text Binary64.float
             "UNEXPECTED: Rust native FASTER than C native.");
        EvPrint Stub.handle Binary64.float
          (Text Binary64.float
             "The PyO3 boundary-crossing hypothesis is WRONG for this workload.")]
       Stub.w0).
Proof. reflexivity. Qed.

(** The main run with the stub providers: [c_sum_list] returns 0, not
    499500. *)
Lemma verification_gates_timing_witness :
  (environment_report Stub.handle Stub.ext Binary64.float ;;
   build_lists Stub.handle Stub.ext Binary64.float Stub.CNode Stub.RustNode)
    Stub.w0
  = (Val (PyObj Stub.handle 999, ExtObj Stub.handle 0%nat,
          ExtObj Stub.handle 1%nat), Stub.w1) /\
  ~ sums_agree Stub.handle Stub.ext Stub.ext_value Stub.ext_next
      Stub.c_sum_list Stub.rust_sum_list 1000
      (PyObj Stub.handle 999) (ExtObj Stub.handle 0%nat)
      (ExtObj Stub.handle 1%nat)
      (objs Stub.handle Stub.ext Binary64.float Stub.w1) /\
  exists r w',
    Stub.run_main 1000 Stub.w0 = (r, w') /\
    aborted r /\
    ticks Stub.handle Stub.ext Binary64.float w'
    = ticks Stub.handle Stub.ext Binary64.float Stub.w0 /\
    exists new,
      trace Stub.handle Stub.ext Binary64.float w'
      = trace Stub.handle Stub.ext Binary64.float Stub.w0 ++ new /\
      Forall (fun ev => bench_event Stub.handle Binary64.float ev = false) new.
Proof.
  assert (Hbuild :
            (environment_report Stub.handle Stub.ext Binary64.float ;;
             build_lists Stub.handle Stub.ext Binary64.float
                         Stub.CNode Stub.RustNode) Stub.w0
            = (Val (PyObj Stub.handle 999, ExtObj Stub.handle 0%nat,
                    ExtObj Stub.handle 1%nat), Stub.w1)).
  { vm_compute. reflexivity. }
  assert (Hno :
            ~ sums_agree Stub.handle Stub.ext Stub.ext_value Stub.ext_next
                Stub.c_sum_list Stub.rust_sum_list 1000
                (PyObj Stub.handle 999) (ExtObj Stub.handle 0%nat)
                (ExtObj Stub.handle 1%nat)
                (objs Stub.handle Stub.ext Binary64.float Stub.w1)).
  { intros (s1 & s2 & s3 & s4 & s5 & s6 & _ & E2 & _).
    unfold in_ext, Stub.c_sum_list, ret in E2. discriminate E2. }
  split; [exact Hbuild|]. split; [exact Hno|].
  exact (verification_gates_timing Stub.handle Stub.ext Stub.ext_value
           Stub.ext_next Binary64.float Binary64.int_truediv Binary64.div
           Binary64.sub Binary64.lt Binary64.is_zero Binary64.of_int
           Stub.CNode Stub.c_sum_list Stub.RustNode Stub.rust_sum_list
           1000 Stub.w0 (PyObj Stub.handle 999) (ExtObj Stub.handle 0%nat)
           (ExtObj Stub.handle 1%nat) Stub.w1 Hbuild Hno).
Defined.


(** An extension module that keeps its nodes in a table: the node class
    appends a row and returns its index, and the descriptors of [.value]
    and [.next] read the row of the object. *)
Module Table.

Definition handle : Type := nat.
Definition ext : Type := list (Z * option (ref handle)).

Definition ext_value (x : handle) : comp ext Z :=
  fun e => match nth_error e x with
           | Some row => (Val (fst row), e)
           | None => (Raise AttributeError, e)
           end.

Definition ext_next (x : handle) : comp ext (option (ref handle)) :=
  fun e => match nth_error e x with
           | Some row => (Val (snd row), e)
           | None => (Raise AttributeError, e)
           end.

Definition CNode (v : Z) (nx : option (ref handle)) : comp ext (ref handle) :=
  fun e => (Val (ExtObj handle (length e)), e ++ [(v, nx)]).

(** The store after [build_list(CNode, 5)] in a fresh process, and the
    head it returned. *)
Definition store5 : store handle ext :=
  Eval vm_compute in
    snd (build_list handle ext (fun v nx => in_ext handle ext (CNode v nx)) 5
                    (mk_store handle ext [] [])).

Definition head5 : option (ref handle) := Some (ExtObj handle 4%nat).

End Table.

(** A list of five extension nodes: the traversals go through all five
    (the sum is 10) and the table of the extension is as before. *)
Lemma sum_list_store_unchanged_witness :
  read_only_getters Table.handle Table.ext Table.ext_value Table.ext_next
                    (foreign Table.handle Table.ext Table.store5) /\
  fst (python_sum_list Table.handle Table.ext Table.ext_value Table.ext_next
                       5 Table.head5 Table.store5) = Val 10 /\
  snd (py_sum_list Table.handle Table.ext Table.ext_value Table.ext_next
                   5 Table.head5 Table.store5) = Table.store5 /\
  snd (python_sum_list Table.handle Table.ext Table.ext_value Table.ext_next
                       5 Table.head5 Table.store5) = Table.store5.
Proof.
  assert (H : read_only_getters Table.handle Table.ext Table.ext_value
                Table.ext_next (foreign Table.handle Table.ext Table.store5)).
  { intros x. unfold Table.ext_value, Table.ext_next.
    destruct (nth_error (foreign Table.handle Table.ext Table.store5) x);
      split; reflexivity. }
  split; [exact H|]. split; [vm_compute; reflexivity|].
  destruct (sum_list_store_unchanged Table.handle Table.ext Table.ext_value
              Table.ext_next 5 Table.head5 Table.store5) as (_ & _ & Hstore).
  exact (Hstore H).
Defined.


(** * Further concrete inputs *)

Module Good.

(** Stub extension modules that pass the verification: every extension
    node holds 499500 and has no successor, and the native sums return
    499500. *)
Definition handle : Type := nat.
Definition ext : Type := unit.

Definition ext_value (x : handle) : comp ext Z := ret 499500.

Definition ext_next (x : handle) : comp ext (option (ref handle)) := ret None.

Definition CNode (v : Z) (nx : option (ref handle)) : comp ext (ref handle) :=
  ret (ExtObj handle 0%nat).

Definition c_sum_list (head : option (ref handle)) : comp ext Z := ret 499500.

Definition RustNode (v : Z) (nx : option (ref handle))
  : comp ext (ref handle) :=
  ret (ExtObj handle 1%nat).

Definition rust_sum_list (head : option (ref handle)) : comp ext Z :=
  ret 499500.

Definition w0 : world handle ext Binary64.float :=
  mk_world handle ext Binary64.float (mk_store handle ext [] tt) Stub.env0
           (fun k => 1000000 * Z.of_nat k) 0 [].

Definition built
  : res (ref handle * ref handle * ref handle)
    * world handle ext Binary64.float :=
  Eval vm_compute in
    (environment_report handle ext Binary64.float ;;
     build_lists handle ext Binary64.float CNode RustNode) w0.

Definition w1 : world handle ext Binary64.float := snd built.

Definition store1 : store handle ext := objs handle ext Binary64.float w1.

Definition run_main (fuel : nat)
  : comp (world handle ext Binary64.float) unit :=
  main handle ext ext_value ext_next Binary64.float
       Binary64.int_truediv Binary64.div Binary64.sub Binary64.lt
       Binary64.is_zero Binary64.of_int
       CNode c_sum_list RustNode rust_sum_list fuel.

(** A heap whose two nodes point at each other. *)
Definition cyclic_store : store handle ext :=
  mk_store handle ext
    [mk_py_node handle 1 (Some (PyObj handle 1));
     mk_py_node handle 2 (Some (PyObj handle 0))] tt.

End Good.

Lemma sum_list_chain_witness :
  chain Stub.handle (heap Stub.handle Stub.ext Stub.store5) Stub.head5
        [(4%nat, 0); (3%nat, 1); (2%nat, 2); (1%nat, 3); (0%nat, 4)] /\
  py_sum_list Stub.handle Stub.ext Stub.ext_value Stub.ext_next 7
              Stub.head5 Stub.store5 = (Val 10, Stub.store5) /\
  python_sum_list Stub.handle Stub.ext Stub.ext_value Stub.ext_next 7
                  Stub.head5 Stub.store5 = (Val 10, Stub.store5).
Proof.
  assert (Hc : chain Stub.handle (heap Stub.handle Stub.ext Stub.store5)
                 Stub.head5
                 [(4%nat, 0); (3%nat, 1); (2%nat, 2); (1%nat, 3); (0%nat, 4)]).
  { simpl. repeat (split; [reflexivity|]; eexists; split; [reflexivity|]).
    reflexivity. }
  split; [exact Hc|].
  exact (sum_list_chain Stub.handle Stub.ext Stub.ext_value Stub.ext_next
           _ 7%nat Stub.head5 Stub.store5 Hc).
Defined.

Lemma sum_list_cycle_witness :
  (forall l, (l < 2)%nat ->
     exists v l',
       nth_error (heap Good.handle Good.ext Good.cyclic_store) l
       = Some (mk_py_node Good.handle v (Some (PyObj Good.handle l')))
       /\ (l' < 2)%nat) /\
  (0 < 2)%nat /\
  py_sum_list Good.handle Good.ext Good.ext_value Good.ext_next 50
              (Some (PyObj Good.handle 0)) Good.cyclic_store
  = (OutOfFuel, Good.cyclic_store) /\
  python_sum_list Good.handle Good.ext Good.ext_value Good.ext_next 50
                  (Some (PyObj Good.handle 0)) Good.cyclic_store
  = (OutOfFuel, Good.cyclic_store).
Proof.
  assert (Hstep : forall l, (l < 2)%nat ->
            exists v l',
              nth_error (heap Good.handle Good.ext Good.cyclic_store) l
              = Some (mk_py_node Good.handle v (Some (PyObj Good.handle l')))
              /\ (l' < 2)%nat).
  { intros [|[|l]] Hl.
    - exists 1, 1%nat. split; [reflexivity|lia].
    - exists 2, 0%nat. split; [reflexivity|lia].
    - lia. }
  split; [exact Hstep|]. split; [lia|].
  apply (sum_list_cycle Good.handle Good.ext Good.ext_value Good.ext_next
           (fun l => (l < 2)%nat) Good.cyclic_store Hstep 50%nat 0%nat).
  lia.
Defined.

Lemma build_list_twice_witness :
  0 < 2 /\ 0 < 3 /\ (Z.to_nat 2 <= 3)%nat /\ (Z.to_nat 3 <= 3)%nat /\
  exists h1 s1 h2 s2,
    build_list Stub.handle Stub.ext (PyNode Stub.handle Stub.ext) 2
               Stub.empty_store = (Val h1, s1) /\
    build_list Stub.handle Stub.ext (PyNode Stub.handle Stub.ext) 3 s1
    = (Val h2, s2) /\
    h1 <> h2 /\
    py_sum_list Stub.handle Stub.ext Stub.ext_value Stub.ext_next 3
                (Some h1) s2 = (Val (2 * (2 - 1) / 2), s2) /\
    py_sum_list Stub.handle Stub.ext Stub.ext_value Stub.ext_next 3
                (Some h2) s2 = (Val (3 * (3 - 1) / 2), s2).
Proof.
  split; [reflexivity|]. split; [reflexivity|].
  split; [vm_compute; lia|]. split; [vm_compute; lia|].
  apply (build_list_twice Stub.handle Stub.ext Stub.ext_value Stub.ext_next
           2 3 Stub.empty_store 3%nat).
  - reflexivity.
  - reflexivity.
  - vm_compute. lia.
  - vm_compute. lia.
Defined.

Lemma bench_aborted_prints_nothing_witness :
  aborted (fst (Stub.run_bench "x" Stub.fn_raises None 1 Stub.w0)) /\
  exists new,
    trace Stub.handle Stub.ext Binary64.float
          (snd (Stub.run_bench "x" Stub.fn_raises None 1 Stub.w0))
    = trace Stub.handle Stub.ext Binary64.float Stub.w0 ++ new /\
    Forall (fun ev => is_print Stub.handle Binary64.float ev = false) new.
Proof.
  assert (Hab : aborted (fst (Stub.run_bench "x" Stub.fn_raises None 1 Stub.w0))).
  { vm_compute. exact I. }
  split; [exact Hab|].
  exact (bench_aborted_prints_nothing Stub.handle Stub.ext Binary64.float
           Binary64.int_truediv "x" Stub.fn_raises None 1 Stub.w0 Hab).
Defined.

Lemma bench_returns_inv_witness :
  bench Stub.handle Stub.ext Binary64.float Binary64.int_truediv "x"
    (Function Stub.handle Stub.ext
       (py_sum_list Stub.handle Stub.ext Stub.ext_value Stub.ext_next 5))
    Stub.head5 3 (Stub.world_of Stub.store5)
  = (Val (Binary64.int_truediv 1000000 3),
     mk_world Stub.handle Stub.ext Binary64.float Stub.store5 Stub.env0
       (fun k => 1000000 * Z.of_nat k) 2
       (repeat (EvCall Stub.handle Binary64.float Stub.head5) 1000
        ++ [EvClock Stub.handle Binary64.float 0]
        ++ repeat (EvCall Stub.handle Binary64.float Stub.head5) 3
        ++ [EvClock Stub.handle Binary64.float 1000000;
            EvPrint Stub.handle Binary64.float
              (BenchLine Binary64.float "x"
                 (Binary64.int_truediv 1000000 3))])) /\
  0 < 3 /\
  callable Stub.handle Stub.ext
    (Function Stub.handle Stub.ext
       (py_sum_list Stub.handle Stub.ext Stub.ext_value Stub.ext_next 5))
  = true.
Proof.
  assert (H : bench Stub.handle Stub.ext Binary64.float Binary64.int_truediv "x"
                (Function Stub.handle Stub.ext
                   (py_sum_list Stub.handle Stub.ext Stub.ext_value
                                Stub.ext_next 5))
                Stub.head5 3 (Stub.world_of Stub.store5)
              = (Val (Binary64.int_truediv 1000000 3),
                 mk_world Stub.handle Stub.ext Binary64.float Stub.store5
                   Stub.env0 (fun k => 1000000 * Z.of_nat k) 2
                   (repeat (EvCall Stub.handle Binary64.float Stub.head5) 1000
                    ++ [EvClock Stub.handle Binary64.float 0]
                    ++ repeat (EvCall Stub.handle Binary64.float Stub.head5) 3
                    ++ [EvClock Stub.handle Binary64.float 1000000;
                        EvPrint Stub.handle Binary64.float
                          (BenchLine Binary64.float "x"
                             (Binary64.int_truediv 1000000 3))]))).
  { vm_compute. reflexivity. }
  split; [exact H|].
  destruct (bench_returns_inv Stub.handle Stub.ext Binary64.float
              Binary64.int_truediv _ _ _ _ _ _ _ H) as (Hit & Hcall & _).
  split; [exact Hit|exact Hcall].
Defined.

(** The complete run with the stub providers of [Good], a clock that
    advances by one millisecond per reading, and binary64 floats: every
    timing is 10.0 ns, every ratio 1.0, and the overhead 0.0. *)
Lemma main_report_witness :
  (environment_report Good.handle Good.ext Binary64.float ;;
   build_lists Good.handle Good.ext Binary64.float Good.CNode Good.RustNode)
    Good.w0
  = (Val (PyObj Good.handle 999, ExtObj Good.handle 0%nat,
          ExtObj Good.handle 1%nat), Good.w1) /\
  objs Good.handle Good.ext Binary64.float Good.w1 = Good.store1 /\
  returns Good.handle Good.ext (fun s => s = Good.store1)
    (py_sum_list Good.handle Good.ext Good.ext_value Good.ext_next 1000)
    (Some (PyObj Good.handle 999)) (N * (N - 1) / 2) /\
  returns Good.handle Good.ext (fun s => s = Good.store1)
    (fun h => in_ext Good.handle Good.ext (Good.c_sum_list h))
    (Some (ExtObj Good.handle 0%nat)) (N * (N - 1) / 2) /\
  returns Good.handle Good.ext (fun s => s = Good.store1)
    (fun h => in_ext Good.handle Good.ext (Good.rust_sum_list h))
    (Some (ExtObj Good.handle 1%nat)) (N * (N - 1) / 2) /\
  returns Good.handle Good.ext (fun s => s = Good.store1)
    (python_sum_list Good.handle Good.ext Good.ext_value Good.ext_next 1000)
    (Some (PyObj Good.handle 999)) (N * (N - 1) / 2) /\
  returns Good.handle Good.ext (fun s => s = Good.store1)
    (python_sum_list Good.handle Good.ext Good.ext_value Good.ext_next 1000)
    (Some (ExtObj Good.handle 0%nat)) (N * (N - 1) / 2) /\
  returns Good.handle Good.ext (fun s => s = Good.store1)
    (python_sum_list Good.handle Good.ext Good.ext_value Good.ext_next 1000)
    (Some (ExtObj Good.handle 1%nat)) (N * (N - 1) / 2) /\
  Binary64.is_zero
    (ns Good.handle Good.ext Binary64.float Binary64.int_truediv Good.w0 1)
  = false /\
  Binary64.is_zero (Binary64.of_int N) = false /\
  exists w',
    main Good.handle Good.ext Good.ext_value Good.ext_next Binary64.float
         Binary64.int_truediv Binary64.div Binary64.sub Binary64.lt
         Binary64.is_zero Binary64.of_int
         Good.CNode Good.c_sum_list Good.RustNode Good.rust_sum_list
         1000 Good.w0
    = (Val tt, w') /\
    ticks Good.handle Good.ext Binary64.float w' = 12%nat /\
    Z.of_nat (calls_made Good.handle Binary64.float
                (trace Good.handle Good.ext Binary64.float w')) = 606000 /\
    printed Good.handle Binary64.float
            (trace Good.handle Good.ext Binary64.float w')
    = [Text _ "============================================================";
       Text _ "Boundary Crossing Benchmark";
       Text _ "============================================================";
       Text _ "Python:   3.12.0";
       Text _ "Platform: Linux-x86_64";
       Text _ "CC:       cc (GCC) 13.2.0";
       Text _ "Rust:     unknown";
       Text _ "";
       Text _ "Correctness: all implementations produce 499500 (sum 0..999)";
       Text _ "";
       Text _ "Linked list traversal: 1000 nodes, 100,000 iterations";
       Text _ "Benchmark                                   ns/traversal";
       Text _ "--------------------------------------------------------";
       Text _ (nl ++ "--- Native (loop + data in same language) ---")%string;
       BenchLine _ "Python loop, Python nodes" (Binary64.of_int 10);
       BenchLine _ "C loop, C nodes" (Binary64.of_int 10);
       BenchLine _ "Rust loop, Rust nodes" (Binary64.of_int 10);
       Text _ (nl ++ "--- Python loop, different node types ---")%string;
       BenchLine _ "Python loop, Python nodes" (Binary64.of_int 10);
       BenchLine _ "Python loop, C nodes" (Binary64.of_int 10);
       BenchLine _ "Python loop, Rust nodes" (Binary64.of_int 10);
       Text _ (nl ++ "--- Ratios (relative to C native) ---")%string;
       RatioLine _ "  Python native / C native:  " (Binary64.of_int 1);
       RatioLine _ "  Rust native / C native:    " (Binary64.of_int 1);
       RatioLine _ "  Python cross / C native:   " (Binary64.of_int 1);
       RatioLine _ "  C cross / C native:        " (Binary64.of_int 1);
       RatioLine _ "  Rust cross / C native:     " (Binary64.of_int 1);
       Text _ (nl ++ "--- Falsification ---")%string;
       SlowerLine _ (Binary64.of_int 0) (Binary64.of_int 0);
       Text _ "Consistent with PyO3 extract/borrow overhead per node."].
Proof.
  assert (Hbuild :
            (environment_report Good.handle Good.ext Binary64.float ;;
             build_lists Good.handle Good.ext Binary64.float
                         Good.CNode Good.RustNode) Good.w0
            = (Val (PyObj Good.handle 999, ExtObj Good.handle 0%nat,
                    ExtObj Good.handle 1%nat), Good.w1)).
  { vm_compute. reflexivity. }
  assert (Hinv : objs Good.handle Good.ext Binary64.float Good.w1
                 = Good.store1) by reflexivity.
  assert (R1 : returns Good.handle Good.ext (fun s => s = Good.store1)
                 (py_sum_list Good.handle Good.ext Good.ext_value
                              Good.ext_next 1000)
                 (Some (PyObj Good.handle 999)) (N * (N - 1) / 2)).
  { intros s Hs. rewrite Hs. exists Good.store1.
    split; [vm_compute; reflexivity|reflexivity]. }
  assert (R2 : returns Good.handle Good.ext (fun s => s = Good.store1)
                 (fun h => in_ext Good.handle Good.ext (Good.c_sum_list h))
                 (Some (ExtObj Good.handle 0%nat)) (N * (N - 1) / 2)).
  { intros s Hs. rewrite Hs. exists Good.store1.
    split; [vm_compute; reflexivity|reflexivity]. }
  assert (R3 : returns Good.handle Good.ext (fun s => s = Good.store1)
                 (fun h => in_ext Good.handle Good.ext (Good.rust_sum_list h))
                 (Some (ExtObj Good.handle 1%nat)) (N * (N - 1) / 2)).
  { intros s Hs. rewrite Hs. exists Good.store1.
    split; [vm_compute; reflexivity|reflexivity]. }
  assert (R4 : returns Good.handle Good.ext (fun s => s = Good.store1)
                 (python_sum_list Good.handle Good.ext Good.ext_value
                                  Good.ext_next 1000)
                 (Some (PyObj Good.handle 999)) (N * (N - 1) / 2)).
  { intros s Hs. rewrite Hs. exists Good.store1.
    split; [vm_compute; reflexivity|reflexivity]. }
  assert (R5 : returns Good.handle Good.ext (fun s => s = Good.store1)
                 (python_sum_list Good.handle Good.ext Good.ext_value
                                  Good.ext_next 1000)
                 (Some (ExtObj Good.handle 0%nat)) (N * (N - 1) / 2)).
  { intros s Hs. rewrite Hs. exists Good.store1.
    split; [vm_compute; reflexivity|reflexivity]. }
  assert (R6 : returns Good.handle Good.ext (fun s => s = Good.store1)
                 (python_sum_list Good.handle Good.ext Good.ext_value
                                  Good.ext_next 1000)
                 (Some (ExtObj Good.handle 1%nat)) (N * (N - 1) / 2)).
  { intros s Hs. rewrite Hs. exists Good.store1.
    split; [vm_compute; reflexivity|reflexivity]. }
  assert (Hz : Binary64.is_zero
                 (ns Good.handle Good.ext Binary64.float Binary64.int_truediv
                     Good.w0 1) = false).
  { vm_compute. reflexivity. }
  assert (HN : Binary64.is_zero (Binary64.of_int N) = false).
  { vm_compute. reflexivity. }
  split; [exact Hbuild|]. split; [exact Hinv|].
  split; [exact R1|]. split; [exact R2|]. split; [exact R3|].
  split; [exact R4|]. split; [exact R5|]. split; [exact R6|].
  split; [exact Hz|]. split; [exact HN|].
  destruct (main_report Good.handle Good.ext Good.ext_value Good.ext_next
              Binary64.float Binary64.int_truediv Binary64.div Binary64.sub
              Binary64.lt Binary64.is_zero Binary64.of_int
              Good.CNode Good.c_sum_list Good.RustNode Good.rust_sum_list
              (fun s => s = Good.store1) 1000%nat Good.w0
              (PyObj Good.handle 999) (ExtObj Good.handle 0%nat)
              (ExtObj Good.handle 1%nat) Good.w1
              Hbuild Hinv R1 R2 R3 R4 R5 R6 Hz HN)
    as (w' & new & Hm & Htr & Htk & Hcalls & Hpr).
  exists w'. split; [exact Hm|]. split; [exact Htk|].
  assert (Hnew : trace Good.handle Good.ext Binary64.float w' = new)
    by exact Htr.
  rewrite Hnew. split.
  - rewrite Hcalls. reflexivity.
  - rewrite Hpr. vm_compute. reflexivity.
Defined.

Module Frozen.

(** The process of [Good] with a clock that does not advance. *)
Definition w0 : world Good.handle Good.ext Binary64.float :=
  mk_world Good.handle Good.ext Binary64.float
           (mk_store Good.handle Good.ext [] tt) Stub.env0
           (fun k => 0) 0 [].

Definition built
  : res (ref Good.handle * ref Good.handle * ref Good.handle)
    * world Good.handle Good.ext Binary64.float :=
  Eval vm_compute in
    (environment_report Good.handle Good.ext Binary64.float ;;
     build_lists Good.handle Good.ext Binary64.float Good.CNode Good.RustNode)
      w0.

Definition w1 : world Good.handle Good.ext Binary64.float := snd built.

End Frozen.

Lemma main_zero_baseline_witness :
  (environment_report Good.handle Good.ext Binary64.float ;;
   build_lists Good.handle Good.ext Binary64.float Good.CNode Good.RustNode)
    Frozen.w0
  = (Val (PyObj Good.handle 999, ExtObj Good.handle 0%nat,
          ExtObj Good.handle 1%nat), Frozen.w1) /\
  objs Good.handle Good.ext Binary64.float Frozen.w1 = Good.store1 /\
  returns Good.handle Good.ext (fun s => s = Good.store1)
    (py_sum_list Good.handle Good.ext Good.ext_value Good.ext_next 1000)
    (Some (PyObj Good.handle 999)) (N * (N - 1) / 2) /\
  returns Good.handle Good.ext (fun s => s = Good.store1)
    (fun h => in_ext Good.handle Good.ext (Good.c_sum_list h))
    (Some (ExtObj Good.handle 0%nat)) (N * (N - 1) / 2) /\
  returns Good.handle Good.ext (fun s => s = Good.store1)
    (fun h => in_ext Good.handle Good.ext (Good.rust_sum_list h))
    (Some (ExtObj Good.handle 1%nat)) (N * (N - 1) / 2) /\
  returns Good.handle Good.ext (fun s => s = Good.store1)
    (python_sum_list Good.handle Good.ext Good.ext_value Good.ext_next 1000)
    (Some (PyObj Good.handle 999)) (N * (N - 1) / 2) /\
  returns Good.handle Good.ext (fun s => s = Good.store1)
    (python_sum_list Good.handle Good.ext Good.ext_value Good.ext_next 1000)
    (Some (ExtObj Good.handle 0%nat)) (N * (N - 1) / 2) /\
  returns Good.handle Good.ext (fun s => s = Good.store1)
    (python_sum_list Good.handle Good.ext Good.ext_value Good.ext_next 1000)
    (Some (ExtObj Good.handle 1%nat)) (N * (N - 1) / 2) /\
  Binary64.is_zero
    (ns Good.handle Good.ext Binary64.float Binary64.int_truediv Frozen.w0 1)
  = true /\
  exists w',
    main Good.handle Good.ext Good.ext_value Good.ext_next Binary64.float
         Binary64.int_truediv Binary64.div Binary64.sub Binary64.lt
         Binary64.is_zero Binary64.of_int
         Good.CNode Good.c_sum_list Good.RustNode Good.rust_sum_list
         1000 Frozen.w0
    = (Raise ZeroDivisionError, w') /\
    printed Good.handle Binary64.float
            (trace Good.handle Good.ext Binary64.float w')
    = [Text _ "============================================================";
       Text _ "Boundary Crossing Benchmark";
       Text _ "============================================================";
       Text _ "Python:   3.12.0";
       Text _ "Platform: Linux-x86_64";
       Text _ "CC:       cc (GCC) 13.2.0";
       Text _ "Rust:     unknown";
       Text _ "";
       Text _ "Correctness: all implementations produce 499500 (sum 0..999)";
       Text _ "";
       Text _ "Linked list traversal: 1000 nodes, 100,000 iterations";
       Text _ "Benchmark                                   ns/traversal";
       Text _ "--------------------------------------------------------";
       Text _ (nl ++ "--- Native (loop + data in same language) ---")%string;
       BenchLine _ "Python loop, Python nodes" (Binary64.of_int 0);
       BenchLine _ "C loop, C nodes" (Binary64.of_int 0);
       BenchLine _ "Rust loop, Rust nodes" (Binary64.of_int 0);
       Text _ (nl ++ "--- Python loop, different node types ---")%string;
       BenchLine _ "Python loop, Python nodes" (Binary64.of_int 0);
       BenchLine _ "Python loop, C nodes" (Binary64.of_int 0);
       BenchLine _ "Python loop, Rust nodes" (Binary64.of_int 0);
       Text _ (nl ++ "--- Ratios (relative to C native) ---")%string].
Proof.
  assert (Hbuild :
            (environment_report Good.handle Good.ext Binary64.float ;;
             build_lists Good.handle Good.ext Binary64.float
                         Good.CNode Good.RustNode) Frozen.w0
            = (Val (PyObj Good.handle 999, ExtObj Good.handle 0%nat,
                    ExtObj Good.handle 1%nat), Frozen.w1)).
  { vm_compute. reflexivity. }
  assert (Hinv : objs Good.handle Good.ext Binary64.float Frozen.w1
                 = Good.store1).
  { vm_compute. reflexivity. }
  assert (R1 : returns Good.handle Good.ext (fun s => s = Good.store1)
                 (py_sum_list Good.handle Good.ext Good.ext_value
                              Good.ext_next 1000)
                 (Some (PyObj Good.handle 999)) (N * (N - 1) / 2)).
  { intros s Hs. rewrite Hs. exists Good.store1.
    split; [vm_compute; reflexivity|reflexivity]. }
  assert (R2 : returns Good.handle Good.ext (fun s => s = Good.store1)
                 (fun h => in_ext Good.handle Good.ext (Good.c_sum_list h))
                 (Some (ExtObj Good.handle 0%nat)) (N * (N - 1) / 2)).
  { intros s Hs. rewrite Hs. exists Good.store1.
    split; [vm_compute; reflexivity|reflexivity]. }
  assert (R3 : returns Good.handle Good.ext (fun s => s = Good.store1)
                 (fun h => in_ext Good.handle Good.ext (Good.rust_sum_list h))
                 (Some (ExtObj Good.handle 1%nat)) (N * (N - 1) / 2)).
  { intros s Hs. rewrite Hs. exists Good.store1.
    split; [vm_compute; reflexivity|reflexivity]. }
  assert (R4 : returns Good.handle Good.ext (fun s => s = Good.store1)
                 (python_sum_list Good.handle Good.ext Good.ext_value
                                  Good.ext_next 1000)
                 (Some (PyObj Good.handle 999)) (N * (N - 1) / 2)).
  { intros s Hs. rewrite Hs. exists Good.store1.
    split; [vm_compute; reflexivity|reflexivity]. }
  assert (R5 : returns Good.handle Good.ext (fun s => s = Good.store1)
                 (python_sum_list Good.handle Good.ext Good.ext_value
                                  Good.ext_next 1000)
                 (Some (ExtObj Good.handle 0%nat)) (N * (N - 1) / 2)).
  { intros s Hs. rewrite Hs. exists Good.store1.
    split; [vm_compute; reflexivity|reflexivity]. }
  assert (R6 : returns Good.handle Good.ext (fun s => s = Good.store1)
                 (python_sum_list Good.handle Good.ext Good.ext_value
                                  Good.ext_next 1000)
                 (Some (ExtObj Good.handle 1%nat)) (N * (N - 1) / 2)).
  { intros s Hs. rewrite Hs. exists Good.store1.
    split; [vm_compute; reflexivity|reflexivity]. }
  assert (Hz : Binary64.is_zero
                 (ns Good.handle Good.ext Binary64.float Binary64.int_truediv
                     Frozen.w0 1) = true).
  { vm_compute. reflexivity. }
  split; [exact Hbuild|]. split; [exact Hinv|].
  split; [exact R1|]. split; [exact R2|]. split; [exact R3|].
  split; [exact R4|]. split; [exact R5|]. split; [exact R6|].
  split; [exact Hz|].
  destruct (main_zero_baseline Good.handle Good.ext Good.ext_value
              Good.ext_next Binary64.float Binary64.int_truediv Binary64.div
              Binary64.sub Binary64.lt Binary64.is_zero Binary64.of_int
              Good.CNode Good.c_sum_list Good.RustNode Good.rust_sum_list
              (fun s => s = Good.store1) 1000%nat Frozen.w0
              (PyObj Good.handle 999) (ExtObj Good.handle 0%nat)
              (ExtObj Good.handle 1%nat) Frozen.w1
              Hbuild Hinv R1 R2 R3 R4 R5 R6 Hz)
    as (w' & new & Hm & Htr & Hpr).
  exists w'. split; [exact Hm|].
  assert (Hnew : trace Good.handle Good.ext Binary64.float w' = new)
    by exact Htr.
  rewrite Hnew, Hpr. vm_compute. reflexivity.
Defined.

(** The stub providers of [Stub]: [c_sum_list] returns 0 both times. *)
Lemma verify_c_mismatch_witness :
  py_sum_list Stub.handle Stub.ext Stub.ext_value Stub.ext_next 1000
    (Some (PyObj Stub.handle 999))
    (objs Stub.handle Stub.ext Binary64.float Stub.w1)
  = (Val (N * (N - 1) / 2), objs Stub.handle Stub.ext Binary64.float Stub.w1) /\
  in_ext Stub.handle Stub.ext (Stub.c_sum_list (Some (ExtObj Stub.handle 0%nat)))
         (objs Stub.handle Stub.ext Binary64.float Stub.w1)
  = (Val 0, objs Stub.handle Stub.ext Binary64.float Stub.w1) /\
  0 <> N * (N - 1) / 2 /\
  verify Stub.handle Stub.ext Stub.ext_value Stub.ext_next Binary64.float
         Stub.c_sum_list Stub.rust_sum_list 1000
         (PyObj Stub.handle 999) (ExtObj Stub.handle 0%nat)
         (ExtObj Stub.handle 1%nat) Stub.w1
  = (Raise (AssertionError "c_sum_list wrong: 0 != 499500"),
     set_objs Stub.handle Stub.ext Binary64.float
       (objs Stub.handle Stub.ext Binary64.float Stub.w1) Stub.w1).
Proof.
  assert (E1 : py_sum_list Stub.handle Stub.ext Stub.ext_value Stub.ext_next
                 1000 (Some (PyObj Stub.handle 999))
                 (objs Stub.handle Stub.ext Binary64.float Stub.w1)
               = (Val (N * (N - 1) / 2),
                  objs Stub.handle Stub.ext Binary64.float Stub.w1)).
  { vm_compute. reflexivity. }
  assert (E2 : in_ext Stub.handle Stub.ext
                 (Stub.c_sum_list (Some (ExtObj Stub.handle 0%nat)))
                 (objs Stub.handle Stub.ext Binary64.float Stub.w1)
               = (Val 0, objs Stub.handle Stub.ext Binary64.float Stub.w1)).
  { vm_compute. reflexivity. }
  assert (Hne : 0 <> N * (N - 1) / 2) by discriminate.
  split; [exact E1|]. split; [exact E2|]. split; [exact Hne|].
  exact (verify_c_mismatch Stub.handle Stub.ext Stub.ext_value Stub.ext_next
           Binary64.float Stub.c_sum_list Stub.rust_sum_list 1000%nat
           (PyObj Stub.handle 999) (ExtObj Stub.handle 0%nat)
           (ExtObj Stub.handle 1%nat) Stub.w1 _ 0 _ 0 _ E1 E2 Hne E2).
Defined.
